(** * Mergington High School API: roster and admin sessions

    A shallow embedding of [src/app.py].  Python [str] values are Rocq
    [string]s; a character is a code point in 0..255, which is what the HTTP
    layer hands to the handlers for header values (headers are decoded as
    Latin-1).  Dictionaries are [gmap]s, Python lists are [list]s, and a
    handler is a function from the process state to a response and the next
    process state. *)

From Stdlib Require Import ZArith NArith Ascii String List Lia.
From stdpp Require Import gmap strings list fin_maps.

Local Open Scope string_scope.
Local Open Scope list_scope.

(** ** Python built-ins used by the handlers *)

Module Py.

(** [str.isspace] on one character (code points 0..255). *)
Definition isspace (c : ascii) : bool :=
  let n := N_of_ascii c in
  (((9 <=? n) && (n <=? 13)) || ((28 <=? n) && (n <=? 32))
   || (n =? 133) || (n =? 160))%N.

(** [str.lower] on one character (code points 0..255): A-Z and the
    Latin-1 capitals move up by 32, everything else stays. *)
Definition lower_char (c : ascii) : ascii :=
  let n := N_of_ascii c in
  if (((65 <=? n) && (n <=? 90))
      || ((192 <=? n) && (n <=? 222) && negb (n =? 215)))%N
  then ascii_of_N (n + 32) else c.

Fixpoint lower (s : string) : string :=
  match s with
  | EmptyString => EmptyString
  | String c cs => String (lower_char c) (lower cs)
  end.

(** [s.startswith(p)] *)
Fixpoint startswith (s p : string) {struct p} : bool :=
  match p with
  | EmptyString => true
  | String pc ps =>
      match s with
      | EmptyString => false
      | String c cs => Ascii.eqb c pc && startswith cs ps
      end
  end.

(** [s.split(sep, 1)] for a one-character separator: at most one cut, at
    the first occurrence of [sep]; the result has one or two pieces. *)
Fixpoint split1 (sep : ascii) (s : string) : list string :=
  match s with
  | EmptyString => [EmptyString]
  | String c cs =>
      if Ascii.eqb c sep then [EmptyString; cs]
      else match split1 sep cs with
           | h :: t => String c h :: t
           | [] => [String c EmptyString]
           end
  end.

Fixpoint lstrip (s : string) : string :=
  match s with
  | EmptyString => EmptyString
  | String c cs => if isspace c then lstrip cs else s
  end.

Fixpoint rstrip (s : string) : string :=
  match s with
  | EmptyString => EmptyString
  | String c cs =>
      match rstrip cs with
      | EmptyString => if isspace c then EmptyString else String c EmptyString
      | r => String c r
      end
  end.

(** [s.strip()] *)
Definition strip (s : string) : string := rstrip (lstrip s).

(** Truth value of a string: only the empty string is falsy. *)
Definition truthy (s : string) : bool :=
  match s with EmptyString => false | String _ _ => true end.

(** [x in l] on a list of strings. *)
Definition contains (x : string) (l : list string) : bool :=
  bool_decide (x ∈ l).

(** [l.remove(x)]: drops the first element equal to [x]; [None] stands
    for the [ValueError] raised when there is none. *)
Fixpoint remove (x : string) (l : list string) : option (list string) :=
  match l with
  | [] => None
  | y :: ys => if String.eqb y x then Some ys
               else match remove x ys with
                    | Some ys' => Some (y :: ys')
                    | None => None
                    end
  end.

(** Number of occurrences, [l.count(x)]. *)
Fixpoint count (x : string) (l : list string) : nat :=
  match l with
  | [] => 0
  | y :: ys => (if String.eqb y x then 1 else 0) + count x ys
  end.

End Py.

(** ** Exceptions and responses *)

Inductive exn :=
| HTTPException (status_code : Z) (detail : string)
| IndexError
| ValueError.

Inductive result (A : Type) :=
| Return (a : A)
| Raise (e : exn).
Arguments Return {A} a.
Arguments Raise {A} e.

#[global] Instance result_ret : MRet result := fun A a => Return a.

#[global] Instance result_bind : MBind result := fun A B k r =>
  match r with
  | Return a => k a
  | Raise e => Raise e
  end.

(** [l[i]] on a Python list. *)
Definition index {A} (l : list A) (i : nat) : result A :=
  match l !! i with
  | Some a => Return a
  | None => Raise IndexError
  end.

(** ** Session tokens: [uuid.uuid4().hex] *)

Module Uuid.

Definition hex_digit (d : N) : ascii :=
  match d with
  | 0 => "0" | 1 => "1" | 2 => "2" | 3 => "3" | 4 => "4" | 5 => "5"
  | 6 => "6" | 7 => "7" | 8 => "8" | 9 => "9" | 10 => "a" | 11 => "b"
  | 12 => "c" | 13 => "d" | 14 => "e" | _ => "f"
  end%N%char.

(** Hexadecimal digits of [v], most significant first, in front of
    [acc]; no digit at all for zero. *)
Fixpoint hex_go (fuel : nat) (v : N) (acc : string) : string :=
  match fuel with
  | O => acc
  | S fuel' =>
      if (v =? 0)%N then acc
      else hex_go fuel' (v / 16)%N (String (hex_digit (v mod 16)%N) acc)
  end.

Fixpoint zeros (n : nat) : string :=
  match n with
  | O => EmptyString
  | S n' => String "0"%char (zeros n')
  end.

(** ['%032x' % v] *)
Definition format_032x (v : N) : string :=
  let digits := hex_go (N.size_nat v) v EmptyString in
  zeros (32 - String.length digits) +:+ digits.

(** The integer of [UUID(bytes=b, version=4)], where [entropy] is the
    sixteen bytes drawn from [os.urandom] read as a big-endian number. *)
Definition uuid4_int (entropy : N) : N :=
  let i := (entropy mod 2 ^ 128)%N in
  let i := N.ldiff i (N.shiftl 0xc000 48) in
  let i := N.lor i (N.shiftl 0x8000 48) in
  let i := N.ldiff i (N.shiftl 0xf000 64) in
  N.lor i (N.shiftl 4 76).

Definition uuid4_hex (entropy : N) : string := format_032x (uuid4_int entropy).

End Uuid.

(** ** Data model *)

Record activity := {
  description : string;
  schedule : string;
  max_participants : Z;
  participants : list string
}.

(** [activity["participants"] = l], the other fields untouched. *)
Definition set_participants (a : activity) (l : list string) : activity :=
  {| description := description a;
     schedule := schedule a;
     max_participants := max_participants a;
     participants := l |}.

(** A value read from [teachers.json]: a string, or anything else (a
    number, a boolean, null, a list, an object), which [==] never finds
    equal to a [str]. *)
Inductive jval :=
| JStr (s : string)
| JOther.

(** [v == s] for [v] the result of [dict.get] ([None] when the key is
    missing) and [s] a [str]. *)
Definition eq_str (v : option jval) (s : string) : bool :=
  match v with
  | Some (JStr s') => String.eqb s' s
  | _ => false
  end.

Record _LoginRequest := {
  username : string;
  password : string
}.

(** The process state: the two module-level dictionaries. *)
Record state := {
  activities : gmap string activity;
  _sessions : gmap string string
}.

Inductive body :=
| TokenBody (token : string)
| MessageBody (message : string)
| ActivitiesBody (all : gmap string activity)
| RedirectResponse (url : string).

Definition activity_entry (name desc sched : string) (cap : Z) (ps : list string)
  : string * activity :=
  (name, {| description := desc; schedule := sched;
            max_participants := cap; participants := ps |}).

Definition initial_activities : gmap string activity :=
  list_to_map [
    activity_entry "Chess Club" "Learn strategies and compete in chess tournaments"
       "Fridays, 3:30 PM - 5:00 PM" 12
       ["michael@mergington.edu"; "daniel@mergington.edu"];
    activity_entry "Programming Class"
       "Learn programming fundamentals and build software projects"
       "Tuesdays and Thursdays, 3:30 PM - 4:30 PM" 20
       ["emma@mergington.edu"; "sophia@mergington.edu"];
    activity_entry "Gym Class" "Physical education and sports activities"
       "Mondays, Wednesdays, Fridays, 2:00 PM - 3:00 PM" 30
       ["john@mergington.edu"; "olivia@mergington.edu"];
    activity_entry "Soccer Team" "Join the school soccer team and compete in matches"
       "Tuesdays and Thursdays, 4:00 PM - 5:30 PM" 22
       ["liam@mergington.edu"; "noah@mergington.edu"];
    activity_entry "Basketball Team" "Practice and play basketball with the school team"
       "Wednesdays and Fridays, 3:30 PM - 5:00 PM" 15
       ["ava@mergington.edu"; "mia@mergington.edu"];
    activity_entry "Art Club" "Explore your creativity through painting and drawing"
       "Thursdays, 3:30 PM - 5:00 PM" 15
       ["amelia@mergington.edu"; "harper@mergington.edu"];
    activity_entry "Drama Club" "Act, direct, and produce plays and performances"
       "Mondays and Wednesdays, 4:00 PM - 5:30 PM" 20
       ["ella@mergington.edu"; "scarlett@mergington.edu"];
    activity_entry "Math Club"
       "Solve challenging problems and participate in math competitions"
       "Tuesdays, 3:30 PM - 4:30 PM" 10
       ["james@mergington.edu"; "benjamin@mergington.edu"];
    activity_entry "Debate Team" "Develop public speaking and argumentation skills"
       "Fridays, 4:00 PM - 5:30 PM" 12
       ["charlotte@mergington.edu"; "henry@mergington.edu"]
  ].

Definition initial_state : state :=
  {| activities := initial_activities; _sessions := ∅ |}.

(** ** Session manager *)

Definition _check_admin_token (authorization : option string)
    (sessions : gmap string string) : result bool :=
  match authorization with
  | None => Return false
  | Some a =>
      if negb (Py.truthy a) then Return false
      else if negb (Py.startswith (Py.lower a) "bearer ") then Return false
      else
        rest ← index (Py.split1 " " a) 1;
        let token := Py.strip rest in
        Return (bool_decide (is_Some (sessions !! token)))
  end.

Definition _create_session (username : string) (entropy : N)
    (sessions : gmap string string) : string * gmap string string :=
  let token := Uuid.uuid4_hex entropy in
  (token, <[token := username]> sessions).

Definition _destroy_session (token : string)
    (sessions : gmap string string) : gmap string string :=
  delete token sessions.

(** ** Handlers *)

Definition with_sessions (st : state) (s : gmap string string) : state :=
  {| activities := activities st; _sessions := s |}.

Definition with_activities (st : state) (a : gmap string activity) : state :=
  {| activities := a; _sessions := _sessions st |}.

Section Handlers.

(** The credential list loaded from [teachers.json] at start-up; each
    entry is a JSON object. *)
Variable TEACHERS : list (gmap string jval).

(** The [for t in TEACHERS] loop of [admin_login], over the entries
    still to visit. *)
Fixpoint admin_login_loop (ts : list (gmap string jval))
    (req : _LoginRequest) (entropy : N) (st : state)
  : result body * state :=
  match ts with
  | [] => (Raise (HTTPException 401 "Invalid username or password"), st)
  | t :: ts' =>
      if eq_str (t !! "username") (username req)
         && eq_str (t !! "password") (password req)
      then
        let '(token, s) :=
          _create_session (username req) entropy (_sessions st) in
        (Return (TokenBody token), with_sessions st s)
      else admin_login_loop ts' req entropy st
  end.

Definition admin_login (req : _LoginRequest) (entropy : N) (st : state)
  : result body * state :=
  admin_login_loop TEACHERS req entropy st.

Definition admin_logout (authorization : option string) (st : state)
  : result body * state :=
  match authorization with
  | None =>
      (Raise (HTTPException 400 "Missing or invalid Authorization header"),
       st)
  | Some a =>
      if negb (Py.truthy a)
         || negb (Py.startswith (Py.lower a) "bearer ")
      then
        (Raise (HTTPException 400 "Missing or invalid Authorization header"),
         st)
      else
        match index (Py.split1 " " a) 1 with
        | Raise e => (Raise e, st)
        | Return rest =>
            let token := Py.strip rest in
            (Return (MessageBody "Logged out"),
             with_sessions st (_destroy_session token (_sessions st)))
        end
  end.

Definition root (st : state) : result body * state :=
  (Return (RedirectResponse "/static/index.html"), st).

Definition get_activities (st : state) : result body * state :=
  (Return (ActivitiesBody (activities st)), st).

Definition signup_for_activity (activity_name email : string)
    (authorization : option string) (st : state) : result body * state :=
  match activities st !! activity_name with
  | None => (Raise (HTTPException 404 "Activity not found"), st)
  | Some activity =>
      match _check_admin_token authorization (_sessions st) with
      | Raise e => (Raise e, st)
      | Return false =>
          (Raise (HTTPException 403
                    "Admin credentials required to sign up students"), st)
      | Return true =>
          if Py.contains email (participants activity) then
            (Raise (HTTPException 400 "Student is already signed up"), st)
          else
            let activity' :=
              set_participants activity (participants activity ++ [email]) in
            (Return (MessageBody
                       ("Signed up " +:+ email +:+ " for " +:+ activity_name)),
             with_activities st (<[activity_name := activity']> (activities st)))
      end
  end.

Definition unregister_from_activity (activity_name email : string)
    (authorization : option string) (st : state) : result body * state :=
  match activities st !! activity_name with
  | None => (Raise (HTTPException 404 "Activity not found"), st)
  | Some activity =>
      match _check_admin_token authorization (_sessions st) with
      | Raise e => (Raise e, st)
      | Return false =>
          (Raise (HTTPException 403
                    "Admin credentials required to unregister students"), st)
      | Return true =>
          if negb (Py.contains email (participants activity)) then
            (Raise (HTTPException 400
                      "Student is not signed up for this activity"), st)
          else
            match Py.remove email (participants activity) with
            | None => (Raise ValueError, st)
            | Some ps =>
                let activity' := set_participants activity ps in
                (Return (MessageBody
                           ("Unregistered " +:+ email +:+ " from "
                            +:+ activity_name)),
                 with_activities st
                   (<[activity_name := activity']> (activities st)))
            end
      end
  end.

(** ** Requests and reachable states *)

Inductive request :=
| Login (req : _LoginRequest) (entropy : N)
| Logout (authorization : option string)
| Root
| GetActivities
| Signup (activity_name email : string) (authorization : option string)
| Unregister (activity_name email : string) (authorization : option string).

Definition handle (r : request) (st : state) : result body * state :=
  match r with
  | Login req entropy => admin_login req entropy st
  | Logout authorization => admin_logout authorization st
  | Root => root st
  | GetActivities => get_activities st
  | Signup n e a => signup_for_activity n e a st
  | Unregister n e a => unregister_from_activity n e a st
  end.

(** Requests served one after the other, from the state at start-up. *)
Fixpoint run (rs : list request) (st : state) : state :=
  match rs with
  | [] => st
  | r :: rs' => run rs' (snd (handle r st))
  end.

Inductive reachable : state → Prop :=
| reachable_init : reachable initial_state
| reachable_step st r : reachable st → reachable (snd (handle r st)).

End Handlers.

(** ** Vocabulary of the statements *)

Fixpoint all_chars (P : ascii → bool) (s : string) : bool :=
  match s with
  | EmptyString => true
  | String c cs => P c && all_chars P cs
  end.

Definition nonspace (c : ascii) : bool := negb (Py.isspace c).

Definition is_hex (c : ascii) : bool :=
  bool_decide (c ∈ list_ascii_of_string "0123456789abcdef").

(** Case-insensitive comparison as the specification words it: two
    characters agree when they are equal after folding the ASCII capitals
    A-Z onto a-z. *)
Definition fold_case (c : ascii) : ascii :=
  let n := N_of_ascii c in
  if ((65 <=? n) && (n <=? 90))%N then ascii_of_N (n + 32) else c.

Definition same_letter (c d : ascii) : bool :=
  Ascii.eqb (fold_case c) (fold_case d).

Fixpoint eq_nocase (s t : string) : bool :=
  match s, t with
  | EmptyString, EmptyString => true
  | String c s', String d t' => same_letter c d && eq_nocase s' t'
  | _, _ => false
  end.

(** An entry of the credential list matches a login request when both
    fields are present, are strings, and equal the request's. *)
Definition credential_ok (req : _LoginRequest) (t : gmap string jval) : Prop :=
  t !! "username" = Some (JStr (username req))
  ∧ t !! "password" = Some (JStr (password req)).

(** No participant list holds an email twice. *)
Definition roster_inv (st : state) : Prop :=
  ∀ name act, activities st !! name = Some act → NoDup (participants act).

(** Every key of the session table was minted by [uuid4]. *)
Definition sessions_inv (st : state) : Prop :=
  ∀ token user, _sessions st !! token = Some user →
                ∃ entropy, token = Uuid.uuid4_hex entropy.

(** An activity record with its participant list blanked: what is left
    is the catalogue entry (description, schedule, capacity). *)
Definition without_participants (a : activity) : activity :=
  set_participants a [].

(** A user name carried by some entry of the credential list that also
    has a string password. *)
Definition known_user (TEACHERS : list (gmap string jval)) (user : string)
  : Prop :=
  ∃ t p, t ∈ TEACHERS ∧ t !! "username" = Some (JStr user)
         ∧ t !! "password" = Some (JStr p).

(** The activity a roster request works on. *)
Definition roster_target (r : request) : option string :=
  match r with
  | Signup name _ _ | Unregister name _ _ => Some name
  | _ => None
  end.

(** The state after a roster request: untouched, or with one activity
    record replaced. *)
Definition replace_activity (name : string) (upd : option activity)
    (st : state) : state :=
  match upd with
  | Some act => with_activities st (<[name := act]> (activities st))
  | None => st
  end.

(** ** Concrete inputs *)

Definition demo_teachers : list (gmap string jval) :=
  [ <["username" := JStr "teacher1"]> (<["password" := JStr "secret"]> ∅) ].

Definition demo_login : _LoginRequest :=
  {| username := "teacher1"; password := "secret" |}.

Definition demo_token : string := "00000000000040008000000000000000".

Definition demo_header : option string :=
  Some "Bearer 00000000000040008000000000000000".

(** One teacher logged in (the draw from [os.urandom] being zero). *)
Definition logged_in : state :=
  run demo_teachers [Login demo_login 0] initial_state.

(** Math Club (capacity 10, two members at start-up) after eight signups. *)
Definition fill_math_club : list request :=
  Login demo_login 0
  :: map (λ e, Signup "Math Club" e demo_header)
       ["s1@mergington.edu"; "s2@mergington.edu"; "s3@mergington.edu";
        "s4@mergington.edu"; "s5@mergington.edu"; "s6@mergington.edu";
        "s7@mergington.edu"; "s8@mergington.edu"].

Definition math_club_full : state :=
  run demo_teachers fill_math_club initial_state.

Definition math_club_act : activity :=
  {| description :=
       "Solve challenging problems and participate in math competitions";
     schedule := "Tuesdays, 3:30 PM - 4:30 PM";
     max_participants := 10;
     participants :=
       ["james@mergington.edu"; "benjamin@mergington.edu";
        "s1@mergington.edu"; "s2@mergington.edu"; "s3@mergington.edu";
        "s4@mergington.edu"; "s5@mergington.edu"; "s6@mergington.edu";
        "s7@mergington.edu"; "s8@mergington.edu"] |}.

Definition chess_club_act : activity :=
  {| description := "Learn strategies and compete in chess tournaments";
     schedule := "Fridays, 3:30 PM - 5:00 PM";
     max_participants := 12;
     participants := ["michael@mergington.edu"; "daniel@mergington.edu"] |}.


Definition demo_token1 : string := "00000000000040008000000000000001".

(** The same teacher logged in twice (draws zero and one). *)
Definition logged_in_twice : state :=
  run demo_teachers [Login demo_login 0; Login demo_login 1] initial_state.

(** * Properties *)

(** ** Strings *)

Lemma all_chars_app P s1 s2 :
  all_chars P (s1 +:+ s2) = all_chars P s1 && all_chars P s2.
Proof.
  induction s1 as [|c s1 IH]; simpl; [done|].
  by rewrite IH, andb_assoc.
Qed.

Lemma all_chars_impl (P Q : ascii → bool) s :
  (∀ c, P c = true → Q c = true) →
  all_chars P s = true → all_chars Q s = true.
Proof.
  intros HPQ. induction s as [|c s IH]; simpl; [done|].
  rewrite !andb_true_iff. intros [Hc Hs]. auto.
Qed.

Lemma is_hex_nonspace c : is_hex c = true → nonspace c = true.
Proof.
  destruct c as [[] [] [] [] [] [] [] []]; vm_compute; congruence.
Qed.

Lemma lstrip_nonspace s : all_chars nonspace s = true → Py.lstrip s = s.
Proof.
  destruct s as [|c s]; simpl; [done|].
  unfold nonspace. rewrite andb_true_iff, negb_true_iff.
  by intros [-> _].
Qed.

Lemma rstrip_nonspace s : all_chars nonspace s = true → Py.rstrip s = s.
Proof.
  induction s as [|c s IH]; simpl; [done|].
  unfold nonspace at 1. rewrite andb_true_iff, negb_true_iff.
  intros [Hc Hs]. rewrite (IH Hs). destruct s; [by rewrite Hc | done].
Qed.

Lemma strip_nonspace s : all_chars nonspace s = true → Py.strip s = s.
Proof.
  intros H. unfold Py.strip. rewrite (lstrip_nonspace _ H).
  by apply rstrip_nonspace.
Qed.

Lemma string_length_app s1 s2 :
  String.length (s1 +:+ s2) = String.length s1 + String.length s2.
Proof. induction s1 as [|c s1 IH]; simpl; [done | by rewrite IH]. Qed.

(** ** Tokens *)

Lemma hex_digit_is_hex d : is_hex (Uuid.hex_digit d) = true.
Proof.
  destruct d as [|p]; [done|].
  do 5 (try destruct p as [p|p|]); done.
Qed.

Lemma hex_go_is_hex fuel : ∀ v acc,
  all_chars is_hex acc = true →
  all_chars is_hex (Uuid.hex_go fuel v acc) = true.
Proof.
  induction fuel as [|fuel IH]; intros v acc Hacc; simpl; [done|].
  destruct (v =? 0)%N; [done|].
  apply IH. simpl. by rewrite hex_digit_is_hex.
Qed.

Lemma hex_go_length fuel : ∀ v acc (k : nat),
  (v < 16 ^ N.of_nat k)%N →
  (String.length (Uuid.hex_go fuel v acc) ≤ k + String.length acc)%nat.
Proof.
  induction fuel as [|fuel IH]; intros v acc k Hv; simpl; [lia|].
  destruct (N.eqb_spec v 0) as [->|Hnz]; [lia|].
  destruct k as [|k]; [simpl in Hv; lia|].
  etrans; [apply (IH _ _ k)|simpl; lia].
  rewrite Nat2N.inj_succ, N.pow_succ_r' in Hv.
  apply N.Div0.div_lt_upper_bound. lia.
Qed.

Lemma zeros_length n : String.length (Uuid.zeros n) = n.
Proof. induction n as [|n IH]; simpl; [done | by rewrite IH]. Qed.

Lemma zeros_is_hex n : all_chars is_hex (Uuid.zeros n) = true.
Proof. induction n as [|n IH]; simpl; done. Qed.

Lemma format_032x_is_hex v : all_chars is_hex (Uuid.format_032x v) = true.
Proof.
  unfold Uuid.format_032x. rewrite all_chars_app, zeros_is_hex.
  by apply hex_go_is_hex.
Qed.

Lemma format_032x_length v :
  (v < 2 ^ 128)%N → String.length (Uuid.format_032x v) = 32.
Proof.
  intros Hv. unfold Uuid.format_032x.
  rewrite string_length_app, zeros_length.
  pose proof (hex_go_length (N.size_nat v) v EmptyString 32) as Hlen.
  simpl String.length in Hlen.
  assert (String.length (Uuid.hex_go (N.size_nat v) v "") ≤ 32)%nat; [|lia].
  etrans; [apply Hlen|lia].
  change (16 ^ N.of_nat 32)%N with (2 ^ 128)%N. done.
Qed.

Lemma lor_lt_pow2 a b n :
  (0 < n)%N → (a < 2 ^ n)%N → (b < 2 ^ n)%N → (N.lor a b < 2 ^ n)%N.
Proof.
  intros Hn Ha Hb.
  destruct (N.eq_dec a 0%N) as [->|Ha0]; [by rewrite N.lor_0_l|].
  destruct (N.eq_dec b 0%N) as [->|Hb0]; [by rewrite N.lor_0_r|].
  destruct (N.eq_dec (N.lor a b) 0%N) as [->|Hab0]; [lia|].
  apply N.log2_lt_pow2; [lia|].
  rewrite N.log2_lor.
  apply N.max_lub_lt; apply N.log2_lt_pow2; lia.
Qed.

Lemma uuid4_int_bound entropy : (Uuid.uuid4_int entropy < 2 ^ 128)%N.
Proof.
  unfold Uuid.uuid4_int.
  assert (entropy mod 2 ^ 128 < 2 ^ 128)%N as H0
    by (apply N.mod_upper_bound; lia).
  set (i0 := (entropy mod 2 ^ 128)%N) in *.
  assert (∀ a b, (a < 2 ^ 128 → N.ldiff a b < 2 ^ 128)%N) as Hdiff.
  { intros a b Ha. pose proof (N.ldiff_le_l a b). lia. }
  apply lor_lt_pow2; [lia| |by vm_compute].
  apply Hdiff. apply lor_lt_pow2; [lia| |by vm_compute].
  by apply Hdiff.
Qed.

Lemma uuid4_hex_length entropy :
  String.length (Uuid.uuid4_hex entropy) = 32.
Proof. apply format_032x_length, uuid4_int_bound. Qed.

Lemma uuid4_hex_is_hex entropy :
  all_chars is_hex (Uuid.uuid4_hex entropy) = true.
Proof. apply format_032x_is_hex. Qed.

Lemma uuid4_hex_strip entropy :
  Py.strip (Uuid.uuid4_hex entropy) = Uuid.uuid4_hex entropy.
Proof.
  apply strip_nonspace.
  eapply all_chars_impl; [apply is_hex_nonspace | apply uuid4_hex_is_hex].
Qed.

Lemma uuid4_hex_nonempty entropy : Uuid.uuid4_hex entropy ≠ "".
Proof.
  intros H. pose proof (uuid4_hex_length entropy) as Hl.
  rewrite H in Hl. discriminate.
Qed.

(** ** Header parsing *)

Lemma lower_char_scheme c :
  Ascii.eqb (Py.lower_char c) "b" = same_letter c "B"
  ∧ Ascii.eqb (Py.lower_char c) "e" = same_letter c "e"
  ∧ Ascii.eqb (Py.lower_char c) "a" = same_letter c "a"
  ∧ Ascii.eqb (Py.lower_char c) "r" = same_letter c "r"
  ∧ Ascii.eqb (Py.lower_char c) " " = same_letter c " ".
Proof. destruct c as [[] [] [] [] [] [] [] []]; vm_compute; tauto. Qed.

Lemma same_letter_space c :
  (same_letter c "B" = true → Ascii.eqb c " " = false)
  ∧ (same_letter c "e" = true → Ascii.eqb c " " = false)
  ∧ (same_letter c "a" = true → Ascii.eqb c " " = false)
  ∧ (same_letter c "r" = true → Ascii.eqb c " " = false)
  ∧ (same_letter c " " = true → Ascii.eqb c " " = true).
Proof.
  destruct c as [[] [] [] [] [] [] [] []]; vm_compute; intuition congruence.
Qed.

(** What the two header tests and the split compute on a header whose
    first seven characters spell the scheme. *)
Lemma bearer_scheme_parse scheme rest :
  eq_nocase scheme "Bearer " = true →
  Py.truthy (scheme +:+ rest) = true
  ∧ Py.startswith (Py.lower (scheme +:+ rest)) "bearer " = true
  ∧ index (Py.split1 " " (scheme +:+ rest)) 1 = Return rest.
Proof.
  destruct scheme as [|c1 [|c2 [|c3 [|c4 [|c5 [|c6 [|c7 [|c8 s]]]]]]]];
    simpl; try done; try (rewrite ?andb_false_r; done).
  rewrite !andb_true_iff.
  intros (H1 & H2 & H3 & H4 & H5 & H6 & H7 & _).
  destruct (lower_char_scheme c1) as (-> & _).
  destruct (lower_char_scheme c2) as (_ & -> & _).
  destruct (lower_char_scheme c3) as (_ & _ & -> & _).
  destruct (lower_char_scheme c4) as (_ & _ & _ & -> & _).
  destruct (lower_char_scheme c5) as (_ & -> & _).
  destruct (lower_char_scheme c6) as (_ & _ & _ & -> & _).
  destruct (lower_char_scheme c7) as (_ & _ & _ & _ & ->).
  rewrite H1, H2, H3, H4, H5, H6, H7.
  destruct (same_letter_space c1) as (E1 & _).
  destruct (same_letter_space c2) as (_ & E2 & _).
  destruct (same_letter_space c3) as (_ & _ & E3 & _).
  destruct (same_letter_space c4) as (_ & _ & _ & E4 & _).
  destruct (same_letter_space c5) as (_ & E5 & _).
  destruct (same_letter_space c6) as (_ & _ & _ & E6 & _).
  destruct (same_letter_space c7) as (_ & _ & _ & _ & E7).
  rewrite (E1 H1), (E2 H2), (E3 H3), (E4 H4), (E5 H5), (E6 H6), (E7 H7).
  by repeat split.
Qed.

(** Conversely, a header that passes the prefix test splits into a scheme
    that spells "Bearer " up to letter case and a remainder. *)
Lemma startswith_bearer_inv a :
  Py.startswith (Py.lower a) "bearer " = true →
  ∃ scheme rest, a = scheme +:+ rest ∧ eq_nocase scheme "Bearer " = true.
Proof.
  destruct a as [|c1 [|c2 [|c3 [|c4 [|c5 [|c6 [|c7 rest]]]]]]];
    simpl; try done; try (rewrite ?andb_false_r; done).
  destruct (lower_char_scheme c1) as (-> & _).
  destruct (lower_char_scheme c2) as (_ & -> & _).
  destruct (lower_char_scheme c3) as (_ & _ & -> & _).
  destruct (lower_char_scheme c4) as (_ & _ & _ & -> & _).
  destruct (lower_char_scheme c5) as (_ & -> & _).
  destruct (lower_char_scheme c6) as (_ & _ & _ & -> & _).
  destruct (lower_char_scheme c7) as (_ & _ & _ & _ & ->).
  intros H.
  exists (String c1 (String c2 (String c3 (String c4
            (String c5 (String c6 (String c7 ""))))))), rest.
  split; [done|]. exact H.
Qed.

Lemma check_admin_token_Some a sessions :
  _check_admin_token (Some a) sessions
  = if Py.truthy a && Py.startswith (Py.lower a) "bearer "
    then rest ← index (Py.split1 " " a) 1;
         Return (bool_decide (is_Some (sessions !! Py.strip rest)))
    else Return false.
Proof.
  unfold _check_admin_token.
  by destruct (Py.truthy a), (Py.startswith (Py.lower a) "bearer ").
Qed.

Lemma check_admin_token_scheme scheme rest sessions :
  eq_nocase scheme "Bearer " = true →
  _check_admin_token (Some (scheme +:+ rest)) sessions
  = Return (bool_decide (is_Some (sessions !! Py.strip rest))).
Proof.
  intros H. destruct (bearer_scheme_parse scheme rest H) as (Ht & Hp & Hs).
  by rewrite check_admin_token_Some, Ht, Hp, Hs.
Qed.

(** The check either fails outright or finds a scheme and a remainder. *)
Lemma check_admin_token_cases h sessions :
  _check_admin_token h sessions = Return false
  ∨ ∃ scheme rest,
      h = Some (scheme +:+ rest) ∧ eq_nocase scheme "Bearer " = true
      ∧ _check_admin_token h sessions
        = Return (bool_decide (is_Some (sessions !! Py.strip rest))).
Proof.
  destruct h as [a|]; [|by left]. rewrite check_admin_token_Some.
  destruct (Py.truthy a); [|by left].
  destruct (Py.startswith (Py.lower a) "bearer ") eqn:Hp; [|by left].
  destruct (startswith_bearer_inv a Hp) as (scheme & rest & -> & Hs).
  right. exists scheme, rest. split; [done|]. split; [done|].
  destruct (bearer_scheme_parse scheme rest Hs) as (Ht & Hp' & Hi).
  rewrite <- (check_admin_token_scheme _ _ _ Hs).
  by rewrite check_admin_token_Some, Ht, Hp'.
Qed.

Lemma check_admin_token_total h sessions :
  ∃ b, _check_admin_token h sessions = Return b.
Proof.
  destruct (check_admin_token_cases h sessions)
    as [->|(scheme & rest & _ & _ & ->)]; eauto.
Qed.

(** C7: the token check answers true exactly when the header is present,
    its first seven characters spell "Bearer " up to letter case (one
    space after the scheme), and the rest of the header, stripped of
    surrounding whitespace, is a key of the session table; in every other
    case it answers false (it never raises), so the caller only ever sees
    a boolean. *)
Theorem C7_check_admin_token_iff (h : option string)
    (sessions : gmap string string) :
  (_check_admin_token h sessions = Return true ↔
     ∃ a scheme rest,
       h = Some a ∧ a = scheme +:+ rest
       ∧ eq_nocase scheme "Bearer " = true
       ∧ is_Some (sessions !! Py.strip rest))
  ∧ (_check_admin_token h sessions ≠ Return true →
     _check_admin_token h sessions = Return false).
Proof.
  split; [split|].
  - destruct (check_admin_token_cases h sessions)
      as [->|(scheme & rest & -> & Hs & ->)]; [done|].
    intros [= Hk%bool_decide_eq_true]. by exists (scheme +:+ rest), scheme, rest.
  - intros (a & scheme & rest & -> & -> & Hs & Hk).
    rewrite (check_admin_token_scheme _ _ _ Hs).
    by rewrite bool_decide_eq_true_2.
  - destruct (check_admin_token_total h sessions) as [[] ->]; [done|auto].
Qed.

(** ** Login and logout *)

Lemma eq_str_true v s : eq_str v s = true ↔ v = Some (JStr s).
Proof.
  destruct v as [[s'|]|]; simpl; [|done..].
  rewrite String.eqb_eq. split; [by intros ->|by intros [= ->]].
Qed.

Lemma credential_ok_eq_str req t :
  eq_str (t !! "username") (username req)
  && eq_str (t !! "password") (password req) = true
  ↔ credential_ok req t.
Proof. unfold credential_ok. by rewrite andb_true_iff, !eq_str_true. Qed.

Lemma state_eta st : with_sessions st (_sessions st) = st.
Proof. by destruct st. Qed.

(** The loop stops at the first matching entry, or runs off the end. *)
Lemma admin_login_loop_spec ts req entropy st :
  (∃ i t, ts !! i = Some t ∧ credential_ok req t
      ∧ (∀ j t', (j < i)%nat → ts !! j = Some t' → ¬ credential_ok req t')
      ∧ admin_login_loop ts req entropy st
        = (Return (TokenBody (Uuid.uuid4_hex entropy)),
           with_sessions st
             (<[Uuid.uuid4_hex entropy := username req]> (_sessions st))))
  ∨ ((∀ t, t ∈ ts → ¬ credential_ok req t)
     ∧ admin_login_loop ts req entropy st
       = (Raise (HTTPException 401 "Invalid username or password"), st)).
Proof.
  induction ts as [|t ts IH]; simpl.
  { right. split; [|done]. by intros t Ht%elem_of_nil. }
  destruct (eq_str (t !! "username") (username req)
            && eq_str (t !! "password") (password req)) eqn:Hm.
  - apply credential_ok_eq_str in Hm. left. exists 0%nat, t.
    split; [done|]. split; [done|]. split; [|done]. intros j t' Hj. lia.
  - assert (¬ credential_ok req t) as Hno.
    { intros Hok%credential_ok_eq_str. congruence. }
    destruct IH as [(i & t' & Hi & Hok & Hfirst & Hrun)|[Hnone Hrun]].
    + left. exists (S i), t'. split; [done|]. split; [done|].
      split; [|done]. intros [|j] t'' Hj; simpl.
      * by intros [= <-].
      * apply Hfirst. lia.
    + right. split; [|done]. intros t' [->|Hin]%elem_of_cons; auto.
Qed.

(** C4: login scans the credential list in order; it succeeds exactly
    when some entry matches both fields by string equality, and then the
    session is recorded under the user name of the first matching entry;
    when no entry matches it fails with status 401, returns no token and
    leaves the process state, session table included, as it was. *)
Theorem C4_login_first_match (TEACHERS : list (gmap string jval))
    (req : _LoginRequest) (entropy : N) (st : state) :
  ((∃ t, t ∈ TEACHERS ∧ credential_ok req t) ↔
     ∃ b st', admin_login TEACHERS req entropy st = (Return b, st'))
  ∧ (∀ b st', admin_login TEACHERS req entropy st = (Return b, st') →
       ∃ i t token,
         TEACHERS !! i = Some t ∧ credential_ok req t
         ∧ (∀ j t', (j < i)%nat → TEACHERS !! j = Some t' →
                    ¬ credential_ok req t')
         ∧ b = TokenBody token
         ∧ (JStr <$> _sessions st' !! token) = t !! "username"
         ∧ _sessions st' = <[token := username req]> (_sessions st)
         ∧ activities st' = activities st)
  ∧ ((∀ t, t ∈ TEACHERS → ¬ credential_ok req t) →
       admin_login TEACHERS req entropy st
       = (Raise (HTTPException 401 "Invalid username or password"), st)).
Proof.
  unfold admin_login.
  destruct (admin_login_loop_spec TEACHERS req entropy st)
    as [(i & t & Hi & Hok & Hfirst & Hrun)|[Hnone Hrun]]; rewrite Hrun.
  - split; [|split].
    + split; [eauto|]. intros _. exists t. split; [|done].
      by eapply list_elem_of_lookup_2.
    + intros b st' [= <- <-]. exists i, t, (Uuid.uuid4_hex entropy).
      repeat (split; [done|]). simpl. rewrite lookup_insert_eq.
      destruct Hok as [-> _]. done.
    + intros Hnone. exfalso. eapply Hnone; [|done].
      by eapply list_elem_of_lookup_2.
  - split; [|split]; [|done..].
    split; [|by intros (b & st' & [=])].
    intros (t & Hin & Hok). by destruct (Hnone t Hin).
Qed.

(** C5: after a successful login that returned token T, the header
    "Bearer T" passes the token check on the resulting session table: the
    token was inserted there, mapped to the user name of the request, and
    survives the header parsing unchanged. *)
Theorem C5_login_token_valid (TEACHERS : list (gmap string jval))
    (req : _LoginRequest) (entropy : N) (st st' : state) (T : string) :
  admin_login TEACHERS req entropy st = (Return (TokenBody T), st') →
  _sessions st' !! T = Some (username req)
  ∧ _check_admin_token (Some ("Bearer " +:+ T)) (_sessions st') = Return true.
Proof.
  unfold admin_login.
  destruct (admin_login_loop_spec TEACHERS req entropy st)
    as [(i & t & Hi & Hok & Hfirst & Hrun)|[Hnone Hrun]]; rewrite Hrun;
    [|done].
  intros [= <- <-]. unfold with_sessions. cbn [_sessions].
  rewrite lookup_insert_eq. split; [done|].
  rewrite (check_admin_token_scheme "Bearer " _ _ eq_refl).
  rewrite uuid4_hex_strip, lookup_insert_eq.
  by rewrite bool_decide_eq_true_2.
Qed.

Lemma lstrip_all_space s : all_chars Py.isspace s = true → Py.lstrip s = "".
Proof.
  induction s as [|c s IH]; simpl; [done|].
  rewrite andb_true_iff. intros [-> Hs]. auto.
Qed.

Lemma strip_all_space s : all_chars Py.isspace s = true → Py.strip s = "".
Proof. intros H. unfold Py.strip. by rewrite (lstrip_all_space _ H). Qed.

Lemma admin_logout_scheme scheme rest st :
  eq_nocase scheme "Bearer " = true →
  admin_logout (Some (scheme +:+ rest)) st
  = (Return (MessageBody "Logged out"),
     with_sessions st (delete (Py.strip rest) (_sessions st))).
Proof.
  intros H. destruct (bearer_scheme_parse scheme rest H) as (Ht & Hp & Hs).
  unfold admin_logout, _destroy_session. by rewrite Ht, Hp, Hs.
Qed.

(** C6: with a header that has the "Bearer " scheme, logout answers
    "Logged out" whatever the session table holds, and answers the same
    when repeated; afterwards the token is not in the table; a token that
    was not in the table leaves the state as it was. *)
Theorem C6_logout_idempotent (st : state) (scheme rest : string) :
  eq_nocase scheme "Bearer " = true →
  ∃ st1,
    admin_logout (Some (scheme +:+ rest)) st
    = (Return (MessageBody "Logged out"), st1)
    ∧ admin_logout (Some (scheme +:+ rest)) st1
      = (Return (MessageBody "Logged out"), st1)
    ∧ _sessions st1 !! Py.strip rest = None
    ∧ _sessions st1 = delete (Py.strip rest) (_sessions st)
    ∧ activities st1 = activities st
    ∧ (_sessions st !! Py.strip rest = None → st1 = st).
Proof.
  intros H. eexists. split; [by apply admin_logout_scheme|].
  rewrite (admin_logout_scheme _ _ _ H). unfold with_sessions.
  cbn [_sessions activities]. rewrite lookup_delete_eq.
  repeat split; try done.
  - by rewrite delete_delete_eq.
  - intros Hnone. rewrite delete_id by done. by destruct st.
Qed.

(** ** Roster lists *)

Lemma count_app x l1 l2 :
  Py.count x (l1 ++ l2) = (Py.count x l1 + Py.count x l2)%nat.
Proof. induction l1 as [|y l1 IH]; simpl; [done|]. rewrite IH. lia. Qed.

Lemma count_not_elem x l : x ∉ l ↔ Py.count x l = 0%nat.
Proof.
  induction l as [|y l IH]; simpl.
  - split; [done|]. intros _. apply not_elem_of_nil.
  - rewrite not_elem_of_cons, IH.
    destruct (String.eqb_spec y x) as [->|Hne].
    + split; [by intros [[] _]|lia].
    + split; [by intros [_ ->]|]. intros Hc. split; [congruence|lia].
Qed.

Lemma count_NoDup l : NoDup l ↔ ∀ x, (Py.count x l ≤ 1)%nat.
Proof.
  induction l as [|y l IH]; simpl.
  - split; [intros _ x; lia|intros _; constructor].
  - rewrite NoDup_cons, IH, count_not_elem. split.
    + intros [Hy Hl] x. specialize (Hl x).
      destruct (String.eqb_spec y x) as [->|Hne]; lia.
    + intros H. split.
      * specialize (H y). rewrite String.eqb_refl in H. lia.
      * intros x. specialize (H x). lia.
Qed.

(** [remove] cuts the list at the first occurrence. *)
Lemma remove_elem x l :
  x ∈ l →
  ∃ l1 l2, l = l1 ++ (x :: l2) ∧ (x ∉ l1)
           ∧ Py.remove x l = Some (l1 ++ l2).
Proof.
  induction l as [|y l IH]; [by intros ?%elem_of_nil|].
  destruct (decide (y = x)) as [->|Hne].
  - intros _. exists [], l. split; [done|]. split; [apply not_elem_of_nil|].
    simpl. by rewrite String.eqb_refl.
  - intros [?|Hin]%elem_of_cons; [done|].
    destruct (IH Hin) as (l1 & l2 & -> & Hx & Hr).
    exists (y :: l1), l2. split; [done|]. split.
    + rewrite not_elem_of_cons. auto.
    + simpl. rewrite Hr. by destruct (String.eqb_spec y x).
Qed.

Lemma remove_count x l1 l2 :
  x ∉ l1 →
  (Py.count x (l1 ++ l2) + 1)%nat = Py.count x (l1 ++ (x :: l2))
  ∧ ∀ y, y ≠ x → Py.count y (l1 ++ l2) = Py.count y (l1 ++ (x :: l2)).
Proof.
  intros Hx. rewrite !count_app. simpl. rewrite String.eqb_refl.
  split; [lia|]. intros y Hy. rewrite !count_app. simpl.
  destruct (String.eqb_spec x y); [congruence|lia].
Qed.

Lemma remove_NoDup (x : string) (l1 l2 : list string) :
  NoDup (l1 ++ (x :: l2)) → NoDup (l1 ++ l2) ∧ (x ∉ l1 ++ l2).
Proof.
  rewrite !NoDup_app, NoDup_cons, not_elem_of_app.
  intros (H1 & H12 & Hx2 & H2). split.
  - split; [done|]. split; [|done]. intros y Hy Hy2.
    apply (H12 y Hy). by right.
  - split; [|done]. intros Hx1. apply (H12 x Hx1). by left.
Qed.

(** ** Signup and unregister, case by case *)

Section Roster.

Variables (st : state) (activity_name email : string).
Variable authorization : option string.

Lemma signup_not_found :
  activities st !! activity_name = None →
  signup_for_activity activity_name email authorization st
  = (Raise (HTTPException 404 "Activity not found"), st).
Proof. intros H. unfold signup_for_activity. by rewrite H. Qed.

Lemma unregister_not_found :
  activities st !! activity_name = None →
  unregister_from_activity activity_name email authorization st
  = (Raise (HTTPException 404 "Activity not found"), st).
Proof. intros H. unfold unregister_from_activity. by rewrite H. Qed.

Variable act : activity.
Hypothesis Hact : activities st !! activity_name = Some act.

Lemma signup_forbidden :
  _check_admin_token authorization (_sessions st) = Return false →
  signup_for_activity activity_name email authorization st
  = (Raise (HTTPException 403
              "Admin credentials required to sign up students"), st).
Proof. intros H. unfold signup_for_activity. by rewrite Hact, H. Qed.

Lemma unregister_forbidden :
  _check_admin_token authorization (_sessions st) = Return false →
  unregister_from_activity activity_name email authorization st
  = (Raise (HTTPException 403
              "Admin credentials required to unregister students"), st).
Proof. intros H. unfold unregister_from_activity. by rewrite Hact, H. Qed.

Hypothesis Hadmin :
  _check_admin_token authorization (_sessions st) = Return true.

Lemma signup_conflict :
  email ∈ participants act →
  signup_for_activity activity_name email authorization st
  = (Raise (HTTPException 400 "Student is already signed up"), st).
Proof.
  intros H. unfold signup_for_activity, Py.contains.
  by rewrite Hact, Hadmin, bool_decide_eq_true_2.
Qed.

Lemma signup_ok :
  email ∉ participants act →
  signup_for_activity activity_name email authorization st
  = (Return (MessageBody
               ("Signed up " +:+ email +:+ " for " +:+ activity_name)),
     with_activities st
       (<[activity_name :=
            set_participants act (participants act ++ [email])]>
          (activities st))).
Proof.
  intros H. unfold signup_for_activity, Py.contains.
  by rewrite Hact, Hadmin, bool_decide_eq_false_2.
Qed.

Lemma unregister_conflict :
  email ∉ participants act →
  unregister_from_activity activity_name email authorization st
  = (Raise (HTTPException 400
              "Student is not signed up for this activity"), st).
Proof.
  intros H. unfold unregister_from_activity, Py.contains.
  by rewrite Hact, Hadmin, bool_decide_eq_false_2.
Qed.

Lemma unregister_ok l1 l2 :
  participants act = l1 ++ (email :: l2) → email ∉ l1 →
  unregister_from_activity activity_name email authorization st
  = (Return (MessageBody
               ("Unregistered " +:+ email +:+ " from " +:+ activity_name)),
     with_activities st
       (<[activity_name := set_participants act (l1 ++ l2)]>
          (activities st))).
Proof.
  intros Hl Hx.
  assert (email ∈ participants act) as Hin.
  { rewrite Hl. apply elem_of_app. right. by left. }
  destruct (remove_elem _ _ Hin) as (k1 & k2 & Hk & Hk1 & Hr).
  assert (k1 = l1 ∧ k2 = l2) as [-> ->].
  { rewrite Hl in Hk. clear -Hk Hx Hk1. revert k1 Hk Hk1.
    induction l1 as [|y l1 IH]; intros [|z k1] Hk Hk1; simplify_eq/=.
    - done.
    - destruct Hk1. by left.
    - destruct Hx. by left.
    - apply not_elem_of_cons in Hx as [_ Hx].
      apply not_elem_of_cons in Hk1 as [_ Hk1].
      destruct (IH Hx k1) as [-> ->]; done. }
  unfold unregister_from_activity, Py.contains.
  by rewrite Hact, Hadmin, bool_decide_eq_true_2, Hr.
Qed.

End Roster.

(** C1: for an activity of the store, an email that is not yet among its
    participants and a header that passes the token check, signup answers
    with its message and the store afterwards holds the same activity with
    the email appended at the end of the participant list; nothing relates
    the length of the list to [max_participants], so this holds for a full
    or overfull activity as well. *)
Theorem C1_signup_appends (st : state) (activity_name email : string)
    (authorization : option string) (act : activity) :
  activities st !! activity_name = Some act →
  email ∉ participants act →
  _check_admin_token authorization (_sessions st) = Return true →
  ∃ st',
    signup_for_activity activity_name email authorization st
    = (Return (MessageBody
                 ("Signed up " +:+ email +:+ " for " +:+ activity_name)), st')
    ∧ activities st' !! activity_name
      = Some (set_participants act (participants act ++ [email]))
    ∧ (∀ other, other ≠ activity_name →
                activities st' !! other = activities st !! other)
    ∧ _sessions st' = _sessions st.
Proof.
  intros Hact Hnew Hadmin. eexists. split; [by eapply signup_ok|].
  unfold with_activities. cbn [activities _sessions].
  rewrite lookup_insert_eq. repeat split; try done.
  intros other Hne. by rewrite lookup_insert_ne.
Qed.

(** C3: a signup or unregister request that names an activity missing
    from the store fails with status 404 whatever the Authorization
    header is, and the state is untouched; for an activity that exists, a
    header that does not pass the token check gives status 403.  The
    existence test comes first. *)
Theorem C3_not_found_before_auth (st : state) (activity_name email : string)
    (authorization : option string) :
  (activities st !! activity_name = None →
     signup_for_activity activity_name email authorization st
     = (Raise (HTTPException 404 "Activity not found"), st)
     ∧ unregister_from_activity activity_name email authorization st
       = (Raise (HTTPException 404 "Activity not found"), st))
  ∧ (is_Some (activities st !! activity_name) →
     _check_admin_token authorization (_sessions st) ≠ Return true →
     signup_for_activity activity_name email authorization st
     = (Raise (HTTPException 403
                 "Admin credentials required to sign up students"), st)
     ∧ unregister_from_activity activity_name email authorization st
       = (Raise (HTTPException 403
                   "Admin credentials required to unregister students"), st)).
Proof.
  split.
  - intros H. split; [by apply signup_not_found|by apply unregister_not_found].
  - intros [act Hact] Hbad.
    destruct (check_admin_token_total authorization (_sessions st))
      as [[] Hc]; [done|].
    split; [by eapply signup_forbidden|by eapply unregister_forbidden].
Qed.

(** C8: for an activity of the store and a header that passes the token
    check, signing up an email that is already a participant fails with
    status 400 and leaves the whole state as it was; so after a successful
    signup the same request is rejected, and the email is in the list
    exactly once. *)
Theorem C8_signup_conflict (st : state) (activity_name email : string)
    (authorization : option string) (act : activity) :
  activities st !! activity_name = Some act →
  _check_admin_token authorization (_sessions st) = Return true →
  (email ∈ participants act →
     signup_for_activity activity_name email authorization st
     = (Raise (HTTPException 400 "Student is already signed up"), st))
  ∧ (email ∉ participants act →
     ∃ msg st1 act1,
       signup_for_activity activity_name email authorization st
       = (Return msg, st1)
       ∧ signup_for_activity activity_name email authorization st1
         = (Raise (HTTPException 400 "Student is already signed up"), st1)
       ∧ activities st1 !! activity_name = Some act1
       ∧ Py.count email (participants act1) = 1%nat).
Proof.
  intros Hact Hadmin. split; [by apply signup_conflict|].
  intros Hnew. eexists _, _, _.
  split; [by eapply signup_ok|].
  unfold with_activities.
  split; [|split].
  - eapply signup_conflict; cbn [activities _sessions];
      [apply lookup_insert_eq|done|].
    simpl. apply elem_of_app. right. by left.
  - cbn [activities]. apply lookup_insert_eq.
  - simpl. rewrite count_app. simpl. rewrite String.eqb_refl.
    apply count_not_elem in Hnew. lia.
Qed.

(** ** Invariants of the reachable states *)

Lemma roster_inv_initial : roster_inv initial_state.
Proof.
  intros name act. unfold initial_state, initial_activities.
  cbn [activities list_to_map foldr activity_entry uncurry].
  rewrite !lookup_insert_Some, lookup_empty.
  intros H; repeat (destruct H as [[_ <-]|[_ H]]; [by compute_done|]).
  done.
Qed.

Lemma sessions_inv_initial : sessions_inv initial_state.
Proof. intros token user. simpl. by rewrite lookup_empty. Qed.

Lemma roster_inv_sessions st s :
  roster_inv st → roster_inv (with_sessions st s).
Proof. done. Qed.

Lemma sessions_inv_activities st a :
  sessions_inv st → sessions_inv (with_activities st a).
Proof. done. Qed.

Lemma roster_inv_insert st name act ps :
  roster_inv st → NoDup ps →
  roster_inv
    (with_activities st (<[name := set_participants act ps]> (activities st))).
Proof.
  intros Hinv Hps n a. unfold with_activities. cbn [activities].
  rewrite lookup_insert_Some. intros [[_ <-]|[_ Hn]]; [done|by eapply Hinv].
Qed.

Section Reachable.

Variable TEACHERS : list (gmap string jval).

Lemma admin_login_state req entropy st :
  snd (admin_login TEACHERS req entropy st) = st
  ∨ snd (admin_login TEACHERS req entropy st)
    = with_sessions st
        (<[Uuid.uuid4_hex entropy := username req]> (_sessions st)).
Proof.
  unfold admin_login.
  destruct (admin_login_loop_spec TEACHERS req entropy st)
    as [(i & t & _ & _ & _ & ->)|[_ ->]]; auto.
Qed.

Lemma admin_logout_state authorization st :
  snd (admin_logout authorization st) = st
  ∨ ∃ token,
      snd (admin_logout authorization st)
      = with_sessions st (delete token (_sessions st)).
Proof.
  unfold admin_logout, _destroy_session.
  destruct authorization as [a|]; [|by left].
  destruct (negb (Py.truthy a)
            || negb (Py.startswith (Py.lower a) "bearer ")); [by left|].
  destruct (index (Py.split1 " " a) 1); [|by left].
  right. by eexists.
Qed.

Lemma signup_state name email authorization st :
  snd (signup_for_activity name email authorization st) = st
  ∨ ∃ act,
      activities st !! name = Some act ∧ (email ∉ participants act)
      ∧ snd (signup_for_activity name email authorization st)
        = with_activities st
            (<[name := set_participants act (participants act ++ [email])]>
               (activities st)).
Proof.
  destruct (activities st !! name) as [act|] eqn:Hact;
    [|left; by rewrite signup_not_found].
  destruct (check_admin_token_total authorization (_sessions st))
    as [[] Hc]; [|left; by erewrite signup_forbidden].
  destruct (decide (email ∈ participants act)) as [Hin|Hnew];
    [left; by erewrite signup_conflict|].
  right. exists act. by erewrite signup_ok.
Qed.

Lemma unregister_state name email authorization st :
  snd (unregister_from_activity name email authorization st) = st
  ∨ ∃ act l1 l2,
      activities st !! name = Some act
      ∧ participants act = l1 ++ (email :: l2) ∧ (email ∉ l1)
      ∧ snd (unregister_from_activity name email authorization st)
        = with_activities st
            (<[name := set_participants act (l1 ++ l2)]> (activities st)).
Proof.
  destruct (activities st !! name) as [act|] eqn:Hact;
    [|left; by rewrite unregister_not_found].
  destruct (check_admin_token_total authorization (_sessions st))
    as [[] Hc]; [|left; by erewrite unregister_forbidden].
  destruct (decide (email ∈ participants act)) as [Hin|Hnew];
    [|left; by erewrite unregister_conflict].
  destruct (remove_elem _ _ Hin) as (l1 & l2 & Hl & Hx & _).
  right. exists act, l1, l2. by erewrite unregister_ok.
Qed.

Lemma handle_roster_inv r st :
  roster_inv st → roster_inv (snd (handle TEACHERS r st)).
Proof.
  intros Hinv. destruct r as [req e|a| | |n e a|n e a]; simpl; try done.
  - by destruct (admin_login_state req e st) as [->| ->].
  - by destruct (admin_logout_state a st) as [->|[t ->]].
  - destruct (signup_state n e a st) as [->|(act & Hact & Hnew & ->)];
      [done|].
    apply roster_inv_insert; [done|].
    apply NoDup_app. split; [by eapply Hinv|].
    split; [|apply NoDup_singleton].
    intros x Hx ->%list_elem_of_singleton. done.
  - destruct (unregister_state n e a st)
      as [->|(act & l1 & l2 & Hact & Hl & Hx & ->)]; [done|].
    apply roster_inv_insert; [done|].
    apply (remove_NoDup e). rewrite <- Hl. by eapply Hinv.
Qed.

Lemma handle_sessions_inv r st :
  sessions_inv st → sessions_inv (snd (handle TEACHERS r st)).
Proof.
  intros Hinv. destruct r as [req e|a| | |n e a|n e a]; simpl; try done.
  - destruct (admin_login_state req e st) as [->| ->]; [done|].
    intros token user. unfold with_sessions. cbn [_sessions].
    rewrite lookup_insert_Some. intros [[<- _]|[_ H]]; [eauto|].
    by eapply Hinv.
  - destruct (admin_logout_state a st) as [->|[t ->]]; [done|].
    intros token user. unfold with_sessions. cbn [_sessions].
    rewrite lookup_delete_Some. intros [_ H]. by eapply Hinv.
  - by destruct (signup_state n e a st) as [->|(act & _ & _ & ->)].
  - by destruct (unregister_state n e a st)
      as [->|(act & l1 & l2 & _ & _ & _ & ->)].
Qed.

Lemma reachable_inv st :
  reachable TEACHERS st → roster_inv st ∧ sessions_inv st.
Proof.
  induction 1 as [|st r _ [IHr IHs]].
  - split; [apply roster_inv_initial|apply sessions_inv_initial].
  - split; [by apply handle_roster_inv|by apply handle_sessions_inv].
Qed.

Lemma run_reachable rs : ∀ st,
  reachable TEACHERS st → reachable TEACHERS (run TEACHERS rs st).
Proof.
  induction rs as [|r rs IH]; intros st Hst; simpl; [done|].
  apply IH. by constructor.
Qed.

Lemma run_inv rs :
  roster_inv (run TEACHERS rs initial_state)
  ∧ sessions_inv (run TEACHERS rs initial_state).
Proof. apply reachable_inv, run_reachable. constructor. Qed.

End Reachable.

(** ** Claims about the reachable states *)

(** C2: in a state reached from start-up, for an activity of the store
    and a header that passes the token check: unregistering an email that
    is among the participants succeeds and cuts its first occurrence out of
    the list, so the email is counted once less and every other email as
    often as before, and the same request right afterwards fails with
    status 400; unregistering an email that is not among the participants
    fails with status 400 and leaves the state as it was. *)
Theorem C2_unregister_first_occurrence (TEACHERS : list (gmap string jval))
    (rs : list request) (st : state) (activity_name email : string)
    (authorization : option string) (act : activity) :
  st = run TEACHERS rs initial_state →
  activities st !! activity_name = Some act →
  _check_admin_token authorization (_sessions st) = Return true →
  (email ∈ participants act →
     ∃ l1 l2 st1,
       participants act = l1 ++ (email :: l2) ∧ (email ∉ l1)
       ∧ unregister_from_activity activity_name email authorization st
         = (Return (MessageBody ("Unregistered " +:+ email +:+ " from "
                                 +:+ activity_name)), st1)
       ∧ activities st1
         = <[activity_name := set_participants act (l1 ++ l2)]> (activities st)
       ∧ _sessions st1 = _sessions st
       ∧ (Py.count email (l1 ++ l2) + 1)%nat
         = Py.count email (participants act)
       ∧ (∀ other, other ≠ email →
            Py.count other (l1 ++ l2) = Py.count other (participants act))
       ∧ unregister_from_activity activity_name email authorization st1
         = (Raise (HTTPException 400
                     "Student is not signed up for this activity"), st1))
  ∧ (email ∉ participants act →
     unregister_from_activity activity_name email authorization st
     = (Raise (HTTPException 400
                 "Student is not signed up for this activity"), st)).
Proof.
  intros -> Hact Hadmin. split; [|by apply unregister_conflict].
  intros Hin.
  destruct (remove_elem _ _ Hin) as (l1 & l2 & Hl & Hx & _).
  exists l1, l2. eexists. split; [done|]. split; [done|].
  split; [by eapply unregister_ok|].
  unfold with_activities. cbn [activities _sessions].
  split; [done|]. split; [done|].
  destruct (remove_count email l1 l2 Hx) as [Hc Hother].
  rewrite Hl. split; [done|]. split; [done|].
  eapply unregister_conflict; cbn [activities _sessions];
    [apply lookup_insert_eq|done|].
  simpl. apply (remove_NoDup email).
  destruct (run_inv TEACHERS rs) as [Hinv _].
  rewrite <- Hl. by eapply Hinv.
Qed.

(** C9: in every state reached from the seeded store by serving requests
    one after the other (signup and unregister among them), an email
    occurs at most once in the participant list of any activity. *)
Theorem C9_participants_at_most_once (TEACHERS : list (gmap string jval))
    (rs : list request) (activity_name email : string) (act : activity) :
  activities (run TEACHERS rs initial_state) !! activity_name = Some act →
  NoDup (participants act)
  ∧ (Py.count email (participants act) ≤ 1)%nat.
Proof.
  intros Hact. destruct (run_inv TEACHERS rs) as [Hinv _].
  assert (NoDup (participants act)) as Hnd by by eapply Hinv.
  split; [done|]. by apply count_NoDup.
Qed.

(** C10: in a state reached from start-up, a logout request whose header
    is the scheme followed by whitespace only gets the token that strips
    to the empty string, passes the header test, answers "Logged out"
    rather than status 400, and leaves the state as it was, because the
    empty string was never issued as a token. *)
Theorem C10_logout_blank_token (TEACHERS : list (gmap string jval))
    (rs : list request) (st : state) (scheme rest : string) :
  st = run TEACHERS rs initial_state →
  eq_nocase scheme "Bearer " = true →
  all_chars Py.isspace rest = true →
  Py.strip rest = ""
  ∧ _sessions st !! "" = None
  ∧ admin_logout (Some (scheme +:+ rest)) st
    = (Return (MessageBody "Logged out"), st).
Proof.
  intros -> Hs Hrest. pose proof (strip_all_space _ Hrest) as Hstrip.
  set (st := run TEACHERS rs initial_state).
  assert (_sessions st !! "" = None) as Hnone.
  { destruct (_sessions st !! "") as [user|] eqn:Hk; [|done].
    destruct (run_inv TEACHERS rs) as [_ Hinv].
    destruct (Hinv _ _ Hk) as [entropy He].
    by destruct (uuid4_hex_nonempty entropy). }
  split; [done|]. split; [done|].
  rewrite (admin_logout_scheme _ _ _ Hs), Hstrip.
  rewrite delete_id by done. by rewrite state_eta.
Qed.

(** * Concrete runs *)

Lemma C1_signup_full_activity :
  (activities math_club_full !! "Math Club" = Some math_club_act
   ∧ ("late@mergington.edu" ∉ participants math_club_act)
   ∧ _check_admin_token demo_header (_sessions math_club_full) = Return true
   ∧ Z.of_nat (length (participants math_club_act))
     = max_participants math_club_act)
  ∧ ∃ st',
      signup_for_activity "Math Club" "late@mergington.edu" demo_header
        math_club_full
      = (Return (MessageBody "Signed up late@mergington.edu for Math Club"),
         st')
      ∧ activities st' !! "Math Club"
        = Some (set_participants math_club_act
                  (participants math_club_act ++ ["late@mergington.edu"]))
      ∧ (∀ other, other ≠ "Math Club" →
           activities st' !! other = activities math_club_full !! other)
      ∧ _sessions st' = _sessions math_club_full.
Proof.
  assert (activities math_club_full !! "Math Club" = Some math_club_act)
    as H1 by (vm_compute; reflexivity).
  assert ("late@mergington.edu" ∉ participants math_club_act)
    as H2 by compute_done.
  assert (_check_admin_token demo_header (_sessions math_club_full)
          = Return true) as H3 by (vm_compute; reflexivity).
  split; [by repeat split|].
  exact (C1_signup_appends math_club_full "Math Club" "late@mergington.edu"
           demo_header math_club_act H1 H2 H3).
Defined.

Lemma C2_unregister_michael :
  (logged_in = run demo_teachers [Login demo_login 0] initial_state
   ∧ activities logged_in !! "Chess Club" = Some chess_club_act
   ∧ _check_admin_token demo_header (_sessions logged_in) = Return true
   ∧ "michael@mergington.edu" ∈ participants chess_club_act)
  ∧ ∃ l1 l2 st1,
      participants chess_club_act = l1 ++ ("michael@mergington.edu" :: l2)
      ∧ ("michael@mergington.edu" ∉ l1)
      ∧ unregister_from_activity "Chess Club" "michael@mergington.edu"
          demo_header logged_in
        = (Return (MessageBody
             "Unregistered michael@mergington.edu from Chess Club"), st1)
      ∧ activities st1
        = <["Chess Club" := set_participants chess_club_act (l1 ++ l2)]>
            (activities logged_in)
      ∧ _sessions st1 = _sessions logged_in
      ∧ (Py.count "michael@mergington.edu" (l1 ++ l2) + 1)%nat
        = Py.count "michael@mergington.edu" (participants chess_club_act)
      ∧ (∀ other, other ≠ "michael@mergington.edu" →
           Py.count other (l1 ++ l2)
           = Py.count other (participants chess_club_act))
      ∧ unregister_from_activity "Chess Club" "michael@mergington.edu"
          demo_header st1
        = (Raise (HTTPException 400
                    "Student is not signed up for this activity"), st1).
Proof.
  assert (logged_in = run demo_teachers [Login demo_login 0] initial_state)
    as H0 by reflexivity.
  assert (activities logged_in !! "Chess Club" = Some chess_club_act)
    as H1 by (vm_compute; reflexivity).
  assert (_check_admin_token demo_header (_sessions logged_in) = Return true)
    as H2 by (vm_compute; reflexivity).
  assert ("michael@mergington.edu" ∈ participants chess_club_act)
    as H3 by compute_done.
  split; [by repeat split|].
  exact (proj1 (C2_unregister_first_occurrence demo_teachers
                  [Login demo_login 0] logged_in "Chess Club"
                  "michael@mergington.edu" demo_header chess_club_act
                  H0 H1 H2) H3).
Defined.

Lemma C3_knitting_club_404 :
  activities logged_in !! "Knitting Club" = None
  ∧ signup_for_activity "Knitting Club" "new@mergington.edu" demo_header
      logged_in
    = (Raise (HTTPException 404 "Activity not found"), logged_in)
  ∧ unregister_from_activity "Knitting Club" "new@mergington.edu" None
      logged_in
    = (Raise (HTTPException 404 "Activity not found"), logged_in).
Proof.
  assert (activities logged_in !! "Knitting Club" = None)
    as H by (vm_compute; reflexivity).
  split; [done|]. split.
  - exact (proj1 (proj1 (C3_not_found_before_auth logged_in "Knitting Club"
                           "new@mergington.edu" demo_header) H)).
  - exact (proj2 (proj1 (C3_not_found_before_auth logged_in "Knitting Club"
                           "new@mergington.edu" None) H)).
Defined.

Lemma C4_wrong_password_401 :
  admin_login demo_teachers {| username := "teacher1"; password := "guess" |}
    7 initial_state
  = (Raise (HTTPException 401 "Invalid username or password"), initial_state).
Proof.
  apply (C4_login_first_match demo_teachers).
  intros t ->%list_elem_of_singleton [_ H].
  vm_compute in H. discriminate H.
Defined.

Lemma C5_demo_token_valid :
  admin_login demo_teachers demo_login 0 initial_state
  = (Return (TokenBody demo_token), logged_in)
  ∧ _sessions logged_in !! demo_token = Some (username demo_login)
  ∧ _check_admin_token (Some ("Bearer " +:+ demo_token)) (_sessions logged_in)
    = Return true.
Proof.
  assert (admin_login demo_teachers demo_login 0 initial_state
          = (Return (TokenBody demo_token), logged_in))
    as H by (vm_compute; reflexivity).
  split; [done|].
  exact (C5_login_token_valid demo_teachers demo_login 0 initial_state
           logged_in demo_token H).
Defined.

Lemma C6_logout_twice :
  eq_nocase "bEARER " "Bearer " = true
  ∧ ∃ st1,
      admin_logout (Some ("bEARER " +:+ "  " +:+ demo_token)) logged_in
      = (Return (MessageBody "Logged out"), st1)
      ∧ admin_logout (Some ("bEARER " +:+ "  " +:+ demo_token)) st1
        = (Return (MessageBody "Logged out"), st1)
      ∧ _sessions st1 !! Py.strip ("  " +:+ demo_token) = None
      ∧ _sessions st1
        = delete (Py.strip ("  " +:+ demo_token)) (_sessions logged_in)
      ∧ activities st1 = activities logged_in
      ∧ (_sessions logged_in !! Py.strip ("  " +:+ demo_token) = None →
         st1 = logged_in).
Proof.
  assert (eq_nocase "bEARER " "Bearer " = true) as H by reflexivity.
  split; [done|].
  exact (C6_logout_idempotent logged_in "bEARER " ("  " +:+ demo_token) H).
Defined.

Lemma C7_demo_header_accepted :
  _check_admin_token demo_header (_sessions logged_in) = Return true
  ∧ _check_admin_token (Some "Bearer") (_sessions logged_in) = Return false.
Proof.
  split.
  - apply (proj1 (C7_check_admin_token_iff demo_header (_sessions logged_in))).
    exists ("Bearer " +:+ demo_token), "Bearer ", demo_token.
    repeat split. exists "teacher1". vm_compute. reflexivity.
  - apply (proj2 (C7_check_admin_token_iff (Some "Bearer")
                    (_sessions logged_in))).
    vm_compute. discriminate.
Defined.

Lemma C8_signup_michael_again :
  (activities logged_in !! "Chess Club" = Some chess_club_act
   ∧ _check_admin_token demo_header (_sessions logged_in) = Return true
   ∧ "michael@mergington.edu" ∈ participants chess_club_act)
  ∧ signup_for_activity "Chess Club" "michael@mergington.edu" demo_header
      logged_in
    = (Raise (HTTPException 400 "Student is already signed up"), logged_in).
Proof.
  assert (activities logged_in !! "Chess Club" = Some chess_club_act)
    as H1 by (vm_compute; reflexivity).
  assert (_check_admin_token demo_header (_sessions logged_in) = Return true)
    as H2 by (vm_compute; reflexivity).
  assert ("michael@mergington.edu" ∈ participants chess_club_act)
    as H3 by compute_done.
  split; [by repeat split|].
  exact (proj1 (C8_signup_conflict logged_in "Chess Club"
                  "michael@mergington.edu" demo_header chess_club_act H1 H2)
           H3).
Defined.

Lemma C9_math_club_no_duplicates :
  activities (run demo_teachers fill_math_club initial_state) !! "Math Club"
  = Some math_club_act
  ∧ NoDup (participants math_club_act)
  ∧ (Py.count "s3@mergington.edu" (participants math_club_act) ≤ 1)%nat.
Proof.
  assert (activities (run demo_teachers fill_math_club initial_state)
            !! "Math Club" = Some math_club_act)
    as H by (vm_compute; reflexivity).
  split; [done|].
  exact (C9_participants_at_most_once demo_teachers fill_math_club
           "Math Club" "s3@mergington.edu" math_club_act H).
Defined.

Lemma C10_logout_bearer_blank :
  (logged_in = run demo_teachers [Login demo_login 0] initial_state
   ∧ eq_nocase "Bearer " "Bearer " = true
   ∧ all_chars Py.isspace "   " = true)
  ∧ Py.strip "   " = ""
  ∧ _sessions logged_in !! "" = None
  ∧ admin_logout (Some ("Bearer " +:+ "   ")) logged_in
    = (Return (MessageBody "Logged out"), logged_in).
Proof.
  assert (logged_in = run demo_teachers [Login demo_login 0] initial_state)
    as H0 by reflexivity.
  assert (eq_nocase "Bearer " "Bearer " = true) as H1 by reflexivity.
  assert (all_chars Py.isspace "   " = true) as H2 by reflexivity.
  split; [by repeat split|].
  exact (C10_logout_blank_token demo_teachers [Login demo_login 0] logged_in
           "Bearer " "   " H0 H1 H2).
Defined.

(** * Further properties of the handlers *)

(** ** Session life cycle *)

(** What the token check does with a header does not depend on the
    session table except through one lookup. *)
Lemma check_admin_token_shape h :
  (∀ sessions, _check_admin_token h sessions = Return false)
  ∨ ∃ scheme rest,
      h = Some (scheme +:+ rest) ∧ eq_nocase scheme "Bearer " = true
      ∧ ∀ sessions,
          _check_admin_token h sessions
          = Return (bool_decide (is_Some (sessions !! Py.strip rest))).
Proof.
  destruct h as [a|]; [|by left].
  destruct (Py.truthy a && Py.startswith (Py.lower a) "bearer ") eqn:Hc.
  - apply andb_true_iff in Hc as [_ Hp].
    destruct (startswith_bearer_inv a Hp) as (scheme & rest & -> & Hs).
    right. exists scheme, rest. split; [done|]. split; [done|].
    intros sessions. by apply check_admin_token_scheme.
  - left. intros sessions. by rewrite check_admin_token_Some, Hc.
Qed.

Lemma admin_logout_Some a st :
  admin_logout (Some a) st
  = if Py.truthy a && Py.startswith (Py.lower a) "bearer "
    then match index (Py.split1 " " a) 1 with
         | Raise e => (Raise e, st)
         | Return rest =>
             (Return (MessageBody "Logged out"),
              with_sessions st
                (_destroy_session (Py.strip rest) (_sessions st)))
         end
    else (Raise (HTTPException 400 "Missing or invalid Authorization header"),
          st).
Proof.
  unfold admin_logout.
  by destruct (Py.truthy a), (Py.startswith (Py.lower a) "bearer ").
Qed.

(** Logout either rejects the header or deletes one key. *)
Lemma admin_logout_cases authorization st :
  ((¬ ∃ scheme rest, authorization = Some (scheme +:+ rest)
                     ∧ eq_nocase scheme "Bearer " = true)
   ∧ admin_logout authorization st
     = (Raise (HTTPException 400 "Missing or invalid Authorization header"),
        st))
  ∨ ∃ scheme rest,
      authorization = Some (scheme +:+ rest)
      ∧ eq_nocase scheme "Bearer " = true
      ∧ admin_logout authorization st
        = (Return (MessageBody "Logged out"),
           with_sessions st (delete (Py.strip rest) (_sessions st))).
Proof.
  destruct authorization as [a|];
    [|left; split; [by intros (? & ? & ? & _)|done]].
  destruct (Py.truthy a && Py.startswith (Py.lower a) "bearer ") eqn:Hc.
  - apply andb_true_iff in Hc as [_ Hp].
    destruct (startswith_bearer_inv a Hp) as (scheme & rest & -> & Hs).
    right. exists scheme, rest. split; [done|]. split; [done|].
    by apply admin_logout_scheme.
  - left. split; [|by rewrite admin_logout_Some, Hc].
    intros (scheme & rest & [= ->] & Hs).
    destruct (bearer_scheme_parse scheme rest Hs) as (Ht & Hp & _).
    by rewrite Ht, Hp in Hc.
Qed.

(** X1: logout fails with status 400 exactly when the header is absent or
    does not begin with the scheme "Bearer " (any letter case); it then
    leaves the state as it was.  In every other case it answers "Logged
    out"; it raises nothing else. *)
Theorem X1_logout_bad_request_iff (authorization : option string)
    (st : state) :
  (fst (admin_logout authorization st)
   = Raise (HTTPException 400 "Missing or invalid Authorization header")
   ↔ ¬ ∃ scheme rest, authorization = Some (scheme +:+ rest)
                      ∧ eq_nocase scheme "Bearer " = true)
  ∧ (fst (admin_logout authorization st)
     = Raise (HTTPException 400 "Missing or invalid Authorization header")
     → snd (admin_logout authorization st) = st)
  ∧ (fst (admin_logout authorization st)
     ≠ Raise (HTTPException 400 "Missing or invalid Authorization header")
     → fst (admin_logout authorization st)
       = Return (MessageBody "Logged out")).
Proof.
  destruct (admin_logout_cases authorization st)
    as [[Hno ->]|(scheme & rest & -> & Hs & ->)]; simpl.
  - by repeat split.
  - split; [|by split].
    split; [done|]. intros Hno. destruct Hno. by exists scheme, rest.
Qed.

(** X2: logout revokes.  After a logout with a "Bearer " header, every
    header that carries the same token (whatever the case of its scheme and
    the whitespace around the token) fails the token check, so signup and
    unregister on an existing activity answer 403 with it. *)
Theorem X2_logout_revokes (st : state) (scheme rest scheme' rest' : string)
    (activity_name email : string) :
  eq_nocase scheme "Bearer " = true →
  eq_nocase scheme' "Bearer " = true →
  Py.strip rest' = Py.strip rest →
  is_Some (activities st !! activity_name) →
  ∃ st1,
    admin_logout (Some (scheme +:+ rest)) st
    = (Return (MessageBody "Logged out"), st1)
    ∧ _check_admin_token (Some (scheme' +:+ rest')) (_sessions st1)
      = Return false
    ∧ signup_for_activity activity_name email (Some (scheme' +:+ rest')) st1
      = (Raise (HTTPException 403
                  "Admin credentials required to sign up students"), st1)
    ∧ unregister_from_activity activity_name email
        (Some (scheme' +:+ rest')) st1
      = (Raise (HTTPException 403
                  "Admin credentials required to unregister students"), st1).
Proof.
  intros Hs Hs' Hrest [act Hact]. eexists.
  split; [by apply admin_logout_scheme|].
  assert (_check_admin_token (Some (scheme' +:+ rest'))
            (_sessions (with_sessions st
                          (delete (Py.strip rest) (_sessions st))))
          = Return false) as Hc.
  { rewrite (check_admin_token_scheme _ _ _ Hs'), Hrest.
    unfold with_sessions. cbn [_sessions]. rewrite lookup_delete_eq.
    rewrite bool_decide_eq_false_2; [done|]. by intros [? [=]]. }
  split; [done|].
  split; [by eapply signup_forbidden|by eapply unregister_forbidden].
Qed.

(** X3: logout touches one session only.  A header whose token differs
    from the one logged out passes or fails the token check after the
    logout as it did before. *)
Theorem X3_logout_other_sessions (st : state)
    (scheme rest scheme' rest' : string) :
  eq_nocase scheme "Bearer " = true →
  eq_nocase scheme' "Bearer " = true →
  Py.strip rest ≠ Py.strip rest' →
  _check_admin_token (Some (scheme' +:+ rest'))
    (_sessions (snd (admin_logout (Some (scheme +:+ rest)) st)))
  = _check_admin_token (Some (scheme' +:+ rest')) (_sessions st).
Proof.
  intros Hs Hs' Hother. rewrite (admin_logout_scheme _ _ _ Hs).
  rewrite !(check_admin_token_scheme _ _ _ Hs').
  unfold with_sessions. cbn [snd _sessions].
  by rewrite lookup_delete_ne.
Qed.

(** X4: a login, successful or not, ends no session: a header that
    passed the token check before the login request passes it
    afterwards. *)
Theorem X4_login_keeps_sessions (TEACHERS : list (gmap string jval))
    (req : _LoginRequest) (entropy : N) (st : state)
    (authorization : option string) :
  _check_admin_token authorization (_sessions st) = Return true →
  _check_admin_token authorization
    (_sessions (snd (admin_login TEACHERS req entropy st)))
  = Return true.
Proof.
  intros Hc.
  destruct (check_admin_token_shape authorization)
    as [Hf|(scheme & rest & -> & Hs & Hshape)].
  { rewrite Hf in Hc. discriminate. }
  rewrite Hshape in Hc |- *.
  injection Hc as Hk%bool_decide_eq_true.
  f_equal. apply bool_decide_eq_true.
  unfold admin_login.
  destruct (admin_login_loop_spec TEACHERS req entropy st)
    as [(i & t & _ & _ & _ & ->)|[_ ->]]; [|done].
  unfold with_sessions. cbn [snd _sessions].
  rewrite lookup_insert_is_Some'. by right.
Qed.

(** ** Roster round trips *)

Lemma set_participants_id act : set_participants act (participants act) = act.
Proof. by destruct act. Qed.

Lemma with_activities_id st : with_activities st (activities st) = st.
Proof. by destruct st. Qed.

(** X5: signing an email up and unregistering it again gives back the
    state there was: for an activity of the store, an email that is not
    among its participants and a header that passes the token check, both
    requests succeed and the second undoes the first. *)
Theorem X5_signup_then_unregister (st : state) (activity_name email : string)
    (authorization : option string) (act : activity) :
  activities st !! activity_name = Some act →
  email ∉ participants act →
  _check_admin_token authorization (_sessions st) = Return true →
  ∃ st1,
    signup_for_activity activity_name email authorization st
    = (Return (MessageBody
                 ("Signed up " +:+ email +:+ " for " +:+ activity_name)), st1)
    ∧ unregister_from_activity activity_name email authorization st1
      = (Return (MessageBody
                   ("Unregistered " +:+ email +:+ " from " +:+ activity_name)),
         st).
Proof.
  intros Hact Hnew Hadmin. eexists. split; [by eapply signup_ok|].
  set (act1 := set_participants act (participants act ++ [email])).
  set (st1 := with_activities st (<[activity_name := act1]> (activities st))).
  assert (activities st1 !! activity_name = Some act1) as Hact1
    by apply lookup_insert_eq.
  rewrite (unregister_ok st1 activity_name email authorization act1
             Hact1 Hadmin (participants act) [] eq_refl Hnew).
  f_equal. unfold st1, with_activities. cbn [activities _sessions].
  rewrite insert_insert_eq, app_nil_r. unfold act1, set_participants at 1.
  cbn [description schedule max_participants set_participants].
  fold (set_participants act (participants act)).
  rewrite set_participants_id, insert_id by done. by destruct st.
Qed.

(** X6: in a state reached from start-up, unregistering a participant
    and signing the same email up again (with a header that passes the
    token check) both succeed and move the email to the end of the list:
    the same participants, the others in their old order. *)
Theorem X6_unregister_then_signup (TEACHERS : list (gmap string jval))
    (rs : list request) (st : state) (activity_name email : string)
    (authorization : option string) (act : activity) :
  st = run TEACHERS rs initial_state →
  activities st !! activity_name = Some act →
  _check_admin_token authorization (_sessions st) = Return true →
  email ∈ participants act →
  ∃ l1 l2 msg1 msg2 st1 st2,
    participants act = l1 ++ (email :: l2)
    ∧ unregister_from_activity activity_name email authorization st
      = (Return msg1, st1)
    ∧ signup_for_activity activity_name email authorization st1
      = (Return msg2, st2)
    ∧ activities st2
      = <[activity_name := set_participants act (l1 ++ l2 ++ [email])]>
          (activities st)
    ∧ _sessions st2 = _sessions st
    ∧ l1 ++ l2 ++ [email] ≡ₚ participants act.
Proof.
  intros -> Hact Hadmin Hin.
  set (st := run TEACHERS rs initial_state) in *.
  destruct (remove_elem _ _ Hin) as (l1 & l2 & Hl & Hx & _).
  assert (email ∉ l1 ++ l2) as Hgone.
  { apply (remove_NoDup email). rewrite <- Hl.
    destruct (run_inv TEACHERS rs) as [Hinv _]. by eapply Hinv. }
  set (act1 := set_participants act (l1 ++ l2)).
  set (st1 := with_activities st (<[activity_name := act1]> (activities st))).
  assert (activities st1 !! activity_name = Some act1) as Hact1
    by apply lookup_insert_eq.
  exists l1, l2. eexists _, _, st1, _.
  split; [done|]. split; [by eapply unregister_ok|].
  split; [by apply (signup_ok st1 _ _ _ act1 Hact1 Hadmin)|].
  unfold st1, with_activities. cbn [activities _sessions].
  rewrite insert_insert_eq. split.
  { unfold act1, set_participants.
    cbn [description schedule max_participants participants].
    by rewrite <- app_assoc. }
  split; [done|]. rewrite Hl.
  by rewrite (Permutation_app_comm l2 [email]).
Qed.

(** ** What a request can and cannot do *)

Lemma admin_login_cases (TEACHERS : list (gmap string jval)) req entropy st :
  admin_login TEACHERS req entropy st
  = (Raise (HTTPException 401 "Invalid username or password"), st)
  ∨ ∃ t, t ∈ TEACHERS ∧ credential_ok req t
      ∧ admin_login TEACHERS req entropy st
        = (Return (TokenBody (Uuid.uuid4_hex entropy)),
           with_sessions st
             (<[Uuid.uuid4_hex entropy := username req]> (_sessions st))).
Proof.
  unfold admin_login.
  destruct (admin_login_loop_spec TEACHERS req entropy st)
    as [(i & t & Hi & Hok & _ & ->)|[_ ->]]; [|by left].
  right. exists t. split; [|done]. by eapply list_elem_of_lookup_2.
Qed.

Lemma signup_cases name email authorization st :
  (activities st !! name = None
   ∧ signup_for_activity name email authorization st
     = (Raise (HTTPException 404 "Activity not found"), st))
  ∨ (is_Some (activities st !! name)
     ∧ _check_admin_token authorization (_sessions st) = Return false
     ∧ signup_for_activity name email authorization st
       = (Raise (HTTPException 403
                   "Admin credentials required to sign up students"), st))
  ∨ (∃ act, activities st !! name = Some act
       ∧ _check_admin_token authorization (_sessions st) = Return true
       ∧ email ∈ participants act
       ∧ signup_for_activity name email authorization st
         = (Raise (HTTPException 400 "Student is already signed up"), st))
  ∨ (∃ act, activities st !! name = Some act
       ∧ _check_admin_token authorization (_sessions st) = Return true
       ∧ (email ∉ participants act)
       ∧ signup_for_activity name email authorization st
         = (Return (MessageBody
                      ("Signed up " +:+ email +:+ " for " +:+ name)),
            with_activities st
              (<[name := set_participants act (participants act ++ [email])]>
                 (activities st)))).
Proof.
  destruct (activities st !! name) as [act|] eqn:Hact;
    [|left; split; [done|by apply signup_not_found]].
  right.
  destruct (check_admin_token_total authorization (_sessions st))
    as [[] Hc].
  - right. destruct (decide (email ∈ participants act)) as [Hin|Hnew].
    + left. exists act. repeat (split; [done|]). by eapply signup_conflict.
    + right. exists act. repeat (split; [done|]). by eapply signup_ok.
  - left. split; [done|]. split; [done|]. by eapply signup_forbidden.
Qed.

Lemma unregister_cases name email authorization st :
  (activities st !! name = None
   ∧ unregister_from_activity name email authorization st
     = (Raise (HTTPException 404 "Activity not found"), st))
  ∨ (is_Some (activities st !! name)
     ∧ _check_admin_token authorization (_sessions st) = Return false
     ∧ unregister_from_activity name email authorization st
       = (Raise (HTTPException 403
                   "Admin credentials required to unregister students"), st))
  ∨ (∃ act, activities st !! name = Some act
       ∧ _check_admin_token authorization (_sessions st) = Return true
       ∧ (email ∉ participants act)
       ∧ unregister_from_activity name email authorization st
         = (Raise (HTTPException 400
                     "Student is not signed up for this activity"), st))
  ∨ (∃ act l1 l2, activities st !! name = Some act
       ∧ _check_admin_token authorization (_sessions st) = Return true
       ∧ participants act = l1 ++ (email :: l2) ∧ (email ∉ l1)
       ∧ unregister_from_activity name email authorization st
         = (Return (MessageBody
                      ("Unregistered " +:+ email +:+ " from " +:+ name)),
            with_activities st
              (<[name := set_participants act (l1 ++ l2)]> (activities st)))).
Proof.
  destruct (activities st !! name) as [act|] eqn:Hact;
    [|left; split; [done|by apply unregister_not_found]].
  right.
  destruct (check_admin_token_total authorization (_sessions st))
    as [[] Hc].
  - right. destruct (decide (email ∈ participants act)) as [Hin|Hnew].
    + right. destruct (remove_elem _ _ Hin) as (l1 & l2 & Hl & Hx & _).
      exists act, l1, l2. repeat (split; [done|]). by eapply unregister_ok.
    + left. exists act. repeat (split; [done|]). by eapply unregister_conflict.
  - left. split; [done|]. split; [done|]. by eapply unregister_forbidden.
Qed.

(** X7: a request that is answered with an error has changed nothing:
    whenever a handler raises, the state after it is the state before. *)
Theorem X7_errors_change_nothing (TEACHERS : list (gmap string jval))
    (r : request) (st : state) (e : exn) :
  fst (handle TEACHERS r st) = Raise e →
  snd (handle TEACHERS r st) = st.
Proof.
  destruct r as [req en|a| | |n em a|n em a]; simpl.
  - by destruct (admin_login_cases TEACHERS req en st)
      as [->|(t & _ & _ & ->)].
  - by destruct (admin_logout_cases a st)
      as [[_ ->]|(scheme & rest & _ & _ & ->)].
  - done.
  - done.
  - by destruct (signup_cases n em a st)
      as [[_ ->]|[(_ & _ & ->)|[(act & _ & _ & _ & ->)
                                |(act & _ & _ & _ & ->)]]].
  - by destruct (unregister_cases n em a st)
      as [[_ ->]|[(_ & _ & ->)|[(act & _ & _ & _ & ->)
                                |(act & l1 & l2 & _ & _ & _ & _ & ->)]]].
Qed.


(** X9: login and logout never touch the roster, signup and unregister
    never touch the session table, and the two read-only handlers touch
    nothing, whatever they answer. *)
Theorem X9_handlers_keep_apart (TEACHERS : list (gmap string jval))
    (r : request) (st : state) :
  match r with
  | Login _ _ | Logout _ =>
      activities (snd (handle TEACHERS r st)) = activities st
  | Signup _ _ _ | Unregister _ _ _ =>
      _sessions (snd (handle TEACHERS r st)) = _sessions st
  | Root | GetActivities => snd (handle TEACHERS r st) = st
  end.
Proof.
  destruct r as [req en|a| | |n em a|n em a]; simpl; try done.
  - by destruct (admin_login_state TEACHERS req en st) as [->| ->].
  - by destruct (admin_logout_state a st) as [->|[t ->]].
  - by destruct (signup_state n em a st) as [->|(act & _ & _ & ->)].
  - by destruct (unregister_state n em a st)
      as [->|(act & l1 & l2 & _ & _ & _ & ->)].
Qed.

Lemma handle_catalogue (TEACHERS : list (gmap string jval)) r st :
  without_participants <$> activities (snd (handle TEACHERS r st))
  = without_participants <$> activities st.
Proof.
  assert (∀ name act ps,
            activities st !! name = Some act →
            without_participants
              <$> <[name := set_participants act ps]> (activities st)
            = without_participants <$> activities st) as Hins.
  { intros name act ps Hact. rewrite fmap_insert.
    apply insert_id. by rewrite lookup_fmap, Hact. }
  destruct r as [req en|a| | |n em a|n em a]; simpl; try done.
  - by destruct (admin_login_state TEACHERS req en st) as [->| ->].
  - by destruct (admin_logout_state a st) as [->|[t ->]].
  - destruct (signup_state n em a st) as [->|(act & Hact & _ & ->)];
      [done|by apply Hins].
  - destruct (unregister_state n em a st)
      as [->|(act & l1 & l2 & Hact & _ & _ & ->)]; [done|by apply Hins].
Qed.

Lemma run_catalogue (TEACHERS : list (gmap string jval)) rs : ∀ st,
  without_participants <$> activities (run TEACHERS rs st)
  = without_participants <$> activities st.
Proof.
  induction rs as [|r rs IH]; intros st; simpl; [done|].
  rewrite IH. apply handle_catalogue.
Qed.

(** X10: no sequence of requests creates, deletes or renames an activity
    or changes a description, schedule or capacity: apart from the
    participant lists the store stays what it was. *)
Theorem X10_catalogue_fixed (TEACHERS : list (gmap string jval))
    (rs : list request) (st : state) :
  without_participants <$> activities (run TEACHERS rs st)
  = without_participants <$> activities st
  ∧ dom (activities (run TEACHERS rs st)) = dom (activities st)
  ∧ ∀ name act',
      activities (run TEACHERS rs st) !! name = Some act' →
      ∃ act, activities st !! name = Some act
             ∧ description act' = description act
             ∧ schedule act' = schedule act
             ∧ max_participants act' = max_participants act.
Proof.
  pose proof (run_catalogue TEACHERS rs st) as Heq.
  split; [done|]. split.
  - rewrite <- (dom_fmap_L without_participants), Heq. apply dom_fmap_L.
  - intros name act' Hact'.
    assert ((without_participants <$> activities st) !! name
            = Some (without_participants act')) as Hl
      by by rewrite <- Heq, lookup_fmap, Hact'.
    rewrite lookup_fmap in Hl.
    destruct (activities st !! name) as [act|]; [|done].
    exists act. split; [done|]. by injection Hl as -> -> ->.
Qed.

(** X11: in a state reached from start-up, a header passes the token
    check only if the token it carries, stripped of whitespace, is a
    string of 32 lowercase hexadecimal digits. *)
Theorem X11_accepted_token_shape (TEACHERS : list (gmap string jval))
    (rs : list request) (st : state) (authorization : option string) :
  st = run TEACHERS rs initial_state →
  _check_admin_token authorization (_sessions st) = Return true →
  ∃ scheme rest,
    authorization = Some (scheme +:+ rest)
    ∧ eq_nocase scheme "Bearer " = true
    ∧ String.length (Py.strip rest) = 32%nat
    ∧ all_chars is_hex (Py.strip rest) = true.
Proof.
  intros -> Hc.
  destruct (check_admin_token_shape authorization)
    as [Hf|(scheme & rest & -> & Hs & Hshape)].
  { rewrite Hf in Hc. discriminate. }
  rewrite Hshape in Hc. injection Hc as [user Hk]%bool_decide_eq_true.
  destruct (run_inv TEACHERS rs) as [_ Hinv].
  destruct (Hinv _ _ Hk) as [entropy He].
  exists scheme, rest. split; [done|]. split; [done|]. rewrite He.
  split; [apply uuid4_hex_length|apply uuid4_hex_is_hex].
Qed.

Lemma handle_known_users (TEACHERS : list (gmap string jval)) r st :
  (∀ token user, _sessions st !! token = Some user →
                 known_user TEACHERS user) →
  ∀ token user,
    _sessions (snd (handle TEACHERS r st)) !! token = Some user →
    known_user TEACHERS user.
Proof.
  intros Hinv. destruct r as [req en|a| | |n em a|n em a]; simpl; try done.
  - destruct (admin_login_cases TEACHERS req en st)
      as [->|(t & Hin & [Hu Hp] & ->)]; [done|].
    intros token user. unfold with_sessions. cbn [snd _sessions].
    rewrite lookup_insert_Some. intros [[_ <-]|[_ H]]; [|by eapply Hinv].
    by exists t, (password req).
  - destruct (admin_logout_state a st) as [->|[t ->]]; [done|].
    intros token user. unfold with_sessions. cbn [_sessions].
    rewrite lookup_delete_Some. intros [_ H]. by eapply Hinv.
  - by destruct (signup_state n em a st) as [->|(act & _ & _ & ->)].
  - by destruct (unregister_state n em a st)
      as [->|(act & l1 & l2 & _ & _ & _ & ->)].
Qed.

(** X12: in every state reached from start-up, each session belongs to
    a user name that the credential list carries together with a string
    password: sessions are only ever created for a matched credential. *)
Theorem X12_sessions_of_known_users (TEACHERS : list (gmap string jval))
    (rs : list request) (token user : string) :
  _sessions (run TEACHERS rs initial_state) !! token = Some user →
  known_user TEACHERS user.
Proof.
  assert (∀ st, reachable TEACHERS st →
                ∀ token user, _sessions st !! token = Some user →
                              known_user TEACHERS user) as Hall.
  { induction 1 as [|st r _ IH]; [by intros ??; simpl|].
    by apply handle_known_users. }
  apply Hall, run_reachable. constructor.
Qed.



(** ** Tokens in headers *)

Lemma rstrip_all_space s : all_chars Py.isspace s = true → Py.rstrip s = "".
Proof.
  induction s as [|c s IH]; simpl; [done|].
  rewrite andb_true_iff. intros [Hc Hs]. by rewrite (IH Hs), Hc.
Qed.

Lemma rstrip_app_space t ws :
  all_chars nonspace t = true → all_chars Py.isspace ws = true →
  Py.rstrip (t +:+ ws) = t.
Proof.
  intros Ht Hws. induction t as [|c t IH]; simpl.
  { by apply rstrip_all_space. }
  simpl in Ht. apply andb_true_iff in Ht as [Hc Ht].
  rewrite (IH Ht). unfold nonspace in Hc. apply negb_true_iff in Hc.
  destruct t; [by rewrite Hc|done].
Qed.

Lemma lstrip_app_space ws s :
  all_chars Py.isspace ws = true → Py.lstrip (ws +:+ s) = Py.lstrip s.
Proof.
  induction ws as [|c ws IH]; simpl; [done|].
  rewrite andb_true_iff. intros [-> Hws]. auto.
Qed.

Lemma strip_padded ws1 t ws2 :
  all_chars Py.isspace ws1 = true → all_chars nonspace t = true →
  all_chars Py.isspace ws2 = true →
  Py.strip (ws1 +:+ t +:+ ws2) = t.
Proof.
  intros H1 Ht H2. unfold Py.strip. rewrite (lstrip_app_space _ _ H1).
  destruct t as [|c t].
  - change ("" +:+ ws2) with ws2. by rewrite (lstrip_all_space _ H2).
  - assert (Py.isspace c = false) as Hc.
    { simpl in Ht. apply andb_true_iff in Ht as [Hc _].
      unfold nonspace in Hc. by apply negb_true_iff in Hc. }
    assert (Py.lstrip (String c t +:+ ws2) = String c t +:+ ws2) as ->
      by (simpl; by rewrite Hc).
    by apply rstrip_app_space.
Qed.

(** X14: a token returned by login is accepted in any header that
    spells the scheme "Bearer " in any letter case and surrounds the token
    with any amount of whitespace. *)
Theorem X14_token_header_tolerance (TEACHERS : list (gmap string jval))
    (req : _LoginRequest) (entropy : N) (st st1 : state)
    (token scheme ws1 ws2 : string) :
  admin_login TEACHERS req entropy st = (Return (TokenBody token), st1) →
  eq_nocase scheme "Bearer " = true →
  all_chars Py.isspace ws1 = true →
  all_chars Py.isspace ws2 = true →
  _check_admin_token (Some (scheme +:+ ws1 +:+ token +:+ ws2)) (_sessions st1)
  = Return true.
Proof.
  intros Hlogin Hs H1 H2.
  destruct (admin_login_cases TEACHERS req entropy st)
    as [Hf|(t & _ & _ & Hok)]; rewrite Hlogin in *; [done|].
  injection Hok as -> ->.
  rewrite (check_admin_token_scheme _ _ _ Hs), strip_padded; try done.
  - unfold with_sessions. cbn [_sessions]. rewrite lookup_insert_eq.
    by rewrite bool_decide_eq_true_2.
  - eapply all_chars_impl; [apply is_hex_nonspace|apply uuid4_hex_is_hex].
Qed.

(** X15: a teacher who has just logged in can sign a student up: with
    the token that login returned, signup of an email that is not yet a
    participant of an existing activity succeeds and appends it. *)
Theorem X15_login_then_signup (TEACHERS : list (gmap string jval))
    (req : _LoginRequest) (entropy : N) (st st1 : state) (token : string)
    (activity_name email : string) (act : activity) :
  admin_login TEACHERS req entropy st = (Return (TokenBody token), st1) →
  activities st !! activity_name = Some act →
  email ∉ participants act →
  ∃ st2,
    signup_for_activity activity_name email (Some ("Bearer " +:+ token)) st1
    = (Return (MessageBody
                 ("Signed up " +:+ email +:+ " for " +:+ activity_name)), st2)
    ∧ activities st2
      = <[activity_name :=
            set_participants act (participants act ++ [email])]>
          (activities st).
Proof.
  intros Hlogin Hact Hnew.
  destruct (admin_login_cases TEACHERS req entropy st)
    as [Hf|(t & _ & _ & Hok)]; rewrite Hlogin in *; [done|].
  injection Hok as -> ->.
  set (st1 := with_sessions st _).
  assert (_check_admin_token (Some ("Bearer " +:+ Uuid.uuid4_hex entropy))
            (_sessions st1) = Return true) as Hc.
  { rewrite (check_admin_token_scheme "Bearer " _ _ eq_refl).
    rewrite uuid4_hex_strip. unfold st1, with_sessions. cbn [_sessions].
    by rewrite lookup_insert_eq, bool_decide_eq_true_2. }
  eexists. split; [by apply (signup_ok st1 _ _ _ act Hact Hc)|done].
Qed.

(** X16: the roster changes only for an authenticated request.  If a
    request leaves the activity store different from what it was, it was a
    signup or an unregister for an activity of the store whose header
    passed the token check. *)
Theorem X16_roster_change_needs_token (TEACHERS : list (gmap string jval))
    (r : request) (st : state) :
  activities (snd (handle TEACHERS r st)) ≠ activities st →
  ∃ name email authorization,
    (r = Signup name email authorization
     ∨ r = Unregister name email authorization)
    ∧ is_Some (activities st !! name)
    ∧ _check_admin_token authorization (_sessions st) = Return true.
Proof.
  destruct r as [req en|a| | |n em a|n em a]; simpl; try done.
  - by destruct (admin_login_state TEACHERS req en st) as [->| ->].
  - by destruct (admin_logout_state a st) as [->|[t ->]].
  - destruct (signup_cases n em a st)
      as [[_ ->]|[(_ & _ & ->)|[(act & _ & _ & _ & ->)
                                |(act & Hact & Hc & _)]]]; try done.
    intros _. exists n, em, a. split; [by left|]. by rewrite Hact.
  - destruct (unregister_cases n em a st)
      as [[_ ->]|[(_ & _ & ->)|[(act & _ & _ & _ & ->)
                                |(act & l1 & l2 & Hact & Hc & _)]]];
      try done.
    intros _. exists n, em, a. split; [by right|]. by rewrite Hact.
Qed.

(** ** Requests on different activities *)

(** A roster request reads one activity and the session table, and
    either leaves the state alone or replaces that activity. *)
Lemma handle_local (TEACHERS : list (gmap string jval)) r name st st' :
  roster_target r = Some name →
  activities st' !! name = activities st !! name →
  _sessions st' = _sessions st →
  fst (handle TEACHERS r st') = fst (handle TEACHERS r st)
  ∧ ∃ upd,
      snd (handle TEACHERS r st) = replace_activity name upd st
      ∧ snd (handle TEACHERS r st') = replace_activity name upd st'.
Proof.
  intros Ht Ha Hs.
  destruct r as [req en|a| | |n em a|n em a]; simplify_eq/=.
  - unfold signup_for_activity. rewrite Ha, Hs.
    destruct (activities st !! name) as [act|];
      [|by split; [|exists None]].
    destruct (_check_admin_token a (_sessions st)) as [[]|];
      [|by split; [|exists None]..].
    destruct (Py.contains em (participants act));
      [by split; [|exists None]|].
    split; [done|]. by eexists (Some _).
  - unfold unregister_from_activity. rewrite Ha, Hs.
    destruct (activities st !! name) as [act|];
      [|by split; [|exists None]].
    destruct (_check_admin_token a (_sessions st)) as [[]|];
      [|by split; [|exists None]..].
    destruct (Py.contains em (participants act)); simpl;
      [|by split; [|exists None]].
    destruct (Py.remove em (participants act));
      [|by split; [|exists None]].
    split; [done|]. by eexists (Some _).
Qed.

Lemma replace_activity_frame name upd st :
  _sessions (replace_activity name upd st) = _sessions st
  ∧ ∀ other, other ≠ name →
      activities (replace_activity name upd st) !! other
      = activities st !! other.
Proof.
  destruct upd as [act|]; simpl; [|done].
  split; [done|]. intros other Hne. by rewrite lookup_insert_ne.
Qed.

Lemma replace_activity_commute name1 name2 upd1 upd2 st :
  name1 ≠ name2 →
  replace_activity name2 upd2 (replace_activity name1 upd1 st)
  = replace_activity name1 upd1 (replace_activity name2 upd2 st).
Proof.
  intros Hne. destruct upd1 as [a1|], upd2 as [a2|]; simpl; try done.
  unfold with_activities. cbn [activities _sessions].
  by rewrite insert_insert_ne.
Qed.

(** X17: two roster requests (signup or unregister) that name different
    activities do not interfere: served in either order they get the same
    two answers and leave the same state. *)
Theorem X17_different_activities_commute (TEACHERS : list (gmap string jval))
    (r1 r2 : request) (name1 name2 : string) (st : state) :
  roster_target r1 = Some name1 →
  roster_target r2 = Some name2 →
  name1 ≠ name2 →
  fst (handle TEACHERS r2 (snd (handle TEACHERS r1 st)))
  = fst (handle TEACHERS r2 st)
  ∧ fst (handle TEACHERS r1 (snd (handle TEACHERS r2 st)))
    = fst (handle TEACHERS r1 st)
  ∧ run TEACHERS [r1; r2] st = run TEACHERS [r2; r1] st.
Proof.
  intros H1 H2 Hne. simpl.
  destruct (handle_local TEACHERS r1 name1 st st H1 eq_refl eq_refl)
    as [_ (u1 & E1 & _)].
  destruct (handle_local TEACHERS r2 name2 st st H2 eq_refl eq_refl)
    as [_ (u2 & E2 & _)].
  destruct (replace_activity_frame name1 u1 st) as [Hs1 Ha1].
  destruct (replace_activity_frame name2 u2 st) as [Hs2 Ha2].
  rewrite <- E1 in Hs1, Ha1. rewrite <- E2 in Hs2, Ha2.
  destruct (handle_local TEACHERS r2 name2 st
              (snd (handle TEACHERS r1 st)) H2
              (Ha1 name2 (not_eq_sym Hne)) Hs1) as [F2 (v2 & G2 & G12)].
  destruct (handle_local TEACHERS r1 name1 st
              (snd (handle TEACHERS r2 st)) H1 (Ha2 name1 Hne) Hs2)
    as [F1 (v1 & G1 & G21)].
  split; [done|]. split; [done|].
  rewrite G12, G21, G1, G2. by apply replace_activity_commute.
Qed.

(** ** The listing and independent sessions *)

(** X18: listing the activities needs no header and changes nothing;
    after any sequence of requests from start-up it returns the nine
    seeded activities, each with its seeded description, schedule and
    capacity, and with a participant list free of duplicates. *)
Theorem X18_listing_after_any_run (TEACHERS : list (gmap string jval))
    (rs : list request) :
  ∃ all,
    get_activities (run TEACHERS rs initial_state)
    = (Return (ActivitiesBody all), run TEACHERS rs initial_state)
    ∧ size all = 9%nat
    ∧ dom all = dom initial_activities
    ∧ without_participants <$> all
      = without_participants <$> initial_activities
    ∧ ∀ name act, all !! name = Some act → NoDup (participants act).
Proof.
  exists (activities (run TEACHERS rs initial_state)).
  pose proof (run_catalogue TEACHERS rs initial_state) as Heq.
  assert (dom (activities (run TEACHERS rs initial_state))
          = dom initial_activities) as Hdom.
  { rewrite <- (dom_fmap_L without_participants), Heq. apply dom_fmap_L. }
  split; [done|]. split.
  { rewrite <- size_dom, Hdom, size_dom. by vm_compute. }
  split; [done|]. split; [done|].
  destruct (run_inv TEACHERS rs) as [Hinv _]. apply Hinv.
Qed.

(** X19: sessions are independent.  After two successful logins that
    returned different tokens, logging the first out leaves the second
    accepted and the first refused. *)
Theorem X19_sessions_independent (TEACHERS : list (gmap string jval))
    (req1 req2 : _LoginRequest) (entropy1 entropy2 : N)
    (st st1 st2 : state) (token1 token2 : string) :
  admin_login TEACHERS req1 entropy1 st = (Return (TokenBody token1), st1) →
  admin_login TEACHERS req2 entropy2 st1 = (Return (TokenBody token2), st2) →
  token1 ≠ token2 →
  ∃ st3,
    admin_logout (Some ("Bearer " +:+ token1)) st2
    = (Return (MessageBody "Logged out"), st3)
    ∧ _check_admin_token (Some ("Bearer " +:+ token1)) (_sessions st3)
      = Return false
    ∧ _check_admin_token (Some ("Bearer " +:+ token2)) (_sessions st3)
      = Return true.
Proof.
  intros Hl1 Hl2 Hne.
  destruct (admin_login_cases TEACHERS req1 entropy1 st)
    as [Hf|(t1 & _ & _ & Hok1)]; rewrite Hl1 in *; [done|].
  injection Hok1 as -> ->.
  destruct (admin_login_cases TEACHERS req2 entropy2
              (with_sessions st
                 (<[Uuid.uuid4_hex entropy1 := username req1]> (_sessions st))))
    as [Hf|(t2 & _ & _ & Hok2)]; rewrite Hl2 in *; [done|].
  injection Hok2 as -> ->.
  eexists. split; [by apply (admin_logout_scheme "Bearer ")|].
  rewrite !(check_admin_token_scheme "Bearer " _ _ eq_refl).
  rewrite !uuid4_hex_strip. unfold with_sessions. cbn [_sessions].
  rewrite lookup_delete_eq, lookup_delete_ne by done.
  rewrite lookup_insert_eq.
  rewrite bool_decide_eq_false_2 by (by intros [? [=]]).
  by rewrite bool_decide_eq_true_2.
Qed.

(** X20: logout and the token check read a header the same way.  A
    header that passes the token check is accepted by logout, and after
    that logout the same header fails the check; a header that logout
    rejects with status 400 passes the check under no session table. *)
Theorem X20_logout_agrees_with_check (authorization : option string)
    (st : state) :
  (_check_admin_token authorization (_sessions st) = Return true →
     fst (admin_logout authorization st) = Return (MessageBody "Logged out")
     ∧ _check_admin_token authorization
         (_sessions (snd (admin_logout authorization st)))
       = Return false)
  ∧ (fst (admin_logout authorization st)
     = Raise (HTTPException 400 "Missing or invalid Authorization header") →
     ∀ sessions, _check_admin_token authorization sessions = Return false).
Proof.
  destruct (admin_logout_cases authorization st)
    as [[Hno ->]|(scheme & rest & -> & Hs & ->)]; cbn [fst snd].
  - assert (∀ sessions,
              _check_admin_token authorization sessions = Return false)
      as Hf.
    { intros sessions.
      destruct (check_admin_token_shape authorization)
        as [Hf|(scheme & rest & -> & Hs & _)]; [done|].
      destruct Hno. by exists scheme, rest. }
    split; [|done]. by rewrite Hf.
  - split; [|done]. intros _. split; [done|].
    rewrite (check_admin_token_scheme _ _ _ Hs).
    unfold with_sessions. cbn [_sessions]. rewrite lookup_delete_eq.
    rewrite bool_decide_eq_false_2; [done|]. by intros [? [=]].
Qed.

(** ** Concrete runs of the further properties *)

Lemma X2_logout_then_forbidden :
  ∃ st1,
    admin_logout (Some ("Bearer " +:+ demo_token)) logged_in
    = (Return (MessageBody "Logged out"), st1)
    ∧ _check_admin_token (Some ("bearer " +:+ "  " +:+ demo_token))
        (_sessions st1) = Return false
    ∧ signup_for_activity "Chess Club" "new@mergington.edu"
        (Some ("bearer " +:+ "  " +:+ demo_token)) st1
      = (Raise (HTTPException 403
                  "Admin credentials required to sign up students"), st1)
    ∧ unregister_from_activity "Chess Club" "new@mergington.edu"
        (Some ("bearer " +:+ "  " +:+ demo_token)) st1
      = (Raise (HTTPException 403
                  "Admin credentials required to unregister students"), st1).
Proof.
  apply (X2_logout_revokes logged_in "Bearer " demo_token "bearer "
           ("  " +:+ demo_token) "Chess Club" "new@mergington.edu").
  - reflexivity.
  - reflexivity.
  - vm_compute. reflexivity.
  - exists chess_club_act. vm_compute. reflexivity.
Defined.

Lemma X3_logout_unknown_keeps_demo :
  _check_admin_token (Some ("Bearer " +:+ demo_token))
    (_sessions (snd (admin_logout (Some ("Bearer " +:+ "abc")) logged_in)))
  = _check_admin_token (Some ("Bearer " +:+ demo_token)) (_sessions logged_in).
Proof.
  apply (X3_logout_other_sessions logged_in "Bearer " "abc" "Bearer "
           demo_token).
  - reflexivity.
  - reflexivity.
  - intros H. vm_compute in H. discriminate H.
Defined.

Lemma X4_failed_login_keeps_demo :
  _check_admin_token demo_header
    (_sessions
       (snd (admin_login demo_teachers
               {| username := "teacher1"; password := "guess" |} 5
               logged_in)))
  = Return true.
Proof.
  apply (X4_login_keeps_sessions demo_teachers
           {| username := "teacher1"; password := "guess" |} 5 logged_in
           demo_header).
  vm_compute. reflexivity.
Defined.

Lemma X5_new_student_round_trip :
  ∃ st1,
    signup_for_activity "Chess Club" "new@mergington.edu" demo_header
      logged_in
    = (Return (MessageBody "Signed up new@mergington.edu for Chess Club"),
       st1)
    ∧ unregister_from_activity "Chess Club" "new@mergington.edu" demo_header
        st1
      = (Return (MessageBody
                   "Unregistered new@mergington.edu from Chess Club"),
         logged_in).
Proof.
  apply (X5_signup_then_unregister logged_in "Chess Club"
           "new@mergington.edu" demo_header chess_club_act).
  - vm_compute. reflexivity.
  - compute_done.
  - vm_compute. reflexivity.
Defined.

Lemma X6_michael_moves_to_end :
  ∃ l1 l2 msg1 msg2 st1 st2,
    participants chess_club_act = l1 ++ ("michael@mergington.edu" :: l2)
    ∧ unregister_from_activity "Chess Club" "michael@mergington.edu"
        demo_header logged_in = (Return msg1, st1)
    ∧ signup_for_activity "Chess Club" "michael@mergington.edu" demo_header
        st1 = (Return msg2, st2)
    ∧ activities st2
      = <["Chess Club" :=
            set_participants chess_club_act
              (l1 ++ l2 ++ ["michael@mergington.edu"])]>
          (activities logged_in)
    ∧ _sessions st2 = _sessions logged_in
    ∧ l1 ++ l2 ++ ["michael@mergington.edu"] ≡ₚ participants chess_club_act.
Proof.
  apply (X6_unregister_then_signup demo_teachers [Login demo_login 0]
           logged_in "Chess Club" "michael@mergington.edu" demo_header
           chess_club_act).
  - reflexivity.
  - vm_compute. reflexivity.
  - vm_compute. reflexivity.
  - compute_done.
Defined.

Lemma X7_conflict_changes_nothing :
  snd (handle demo_teachers
         (Signup "Chess Club" "michael@mergington.edu" demo_header) logged_in)
  = logged_in.
Proof.
  apply (X7_errors_change_nothing demo_teachers
           (Signup "Chess Club" "michael@mergington.edu" demo_header)
           logged_in (HTTPException 400 "Student is already signed up")).
  vm_compute. reflexivity.
Defined.


Lemma X11_demo_token_shape :
  ∃ scheme rest,
    demo_header = Some (scheme +:+ rest)
    ∧ eq_nocase scheme "Bearer " = true
    ∧ String.length (Py.strip rest) = 32%nat
    ∧ all_chars is_hex (Py.strip rest) = true.
Proof.
  apply (X11_accepted_token_shape demo_teachers [Login demo_login 0]
           logged_in demo_header).
  - reflexivity.
  - vm_compute. reflexivity.
Defined.

Lemma X12_demo_session_user : known_user demo_teachers "teacher1".
Proof.
  apply (X12_sessions_of_known_users demo_teachers [Login demo_login 0]
           demo_token "teacher1").
  vm_compute. reflexivity.
Defined.


Lemma X14_shouting_header_accepted :
  _check_admin_token
    (Some ("BEARER " +:+ "  " +:+ demo_token +:+ " ")) (_sessions logged_in)
  = Return true.
Proof.
  apply (X14_token_header_tolerance demo_teachers demo_login 0 initial_state
           logged_in demo_token "BEARER " "  " " ").
  - vm_compute. reflexivity.
  - reflexivity.
  - reflexivity.
  - reflexivity.
Defined.

Lemma X15_demo_login_then_signup :
  ∃ st2,
    signup_for_activity "Chess Club" "new@mergington.edu"
      (Some ("Bearer " +:+ demo_token)) logged_in
    = (Return (MessageBody "Signed up new@mergington.edu for Chess Club"),
       st2)
    ∧ activities st2
      = <["Chess Club" :=
            set_participants chess_club_act
              (participants chess_club_act ++ ["new@mergington.edu"])]>
          (activities initial_state).
Proof.
  apply (X15_login_then_signup demo_teachers demo_login 0 initial_state
           logged_in demo_token "Chess Club" "new@mergington.edu"
           chess_club_act).
  - vm_compute. reflexivity.
  - vm_compute. reflexivity.
  - compute_done.
Defined.

Lemma X16_signup_that_changed_was_authenticated :
  ∃ name email authorization,
    (Signup "Chess Club" "new@mergington.edu" demo_header
     = Signup name email authorization
     ∨ Signup "Chess Club" "new@mergington.edu" demo_header
       = Unregister name email authorization)
    ∧ is_Some (activities logged_in !! name)
    ∧ _check_admin_token authorization (_sessions logged_in) = Return true.
Proof.
  apply (X16_roster_change_needs_token demo_teachers
           (Signup "Chess Club" "new@mergington.edu" demo_header) logged_in).
  intros H. apply (f_equal (λ m, m !! "Chess Club")) in H.
  vm_compute in H. discriminate H.
Defined.

Lemma X17_chess_and_math_commute :
  fst (handle demo_teachers
         (Unregister "Math Club" "james@mergington.edu" demo_header)
         (snd (handle demo_teachers
                 (Signup "Chess Club" "new@mergington.edu" demo_header)
                 logged_in)))
  = fst (handle demo_teachers
           (Unregister "Math Club" "james@mergington.edu" demo_header)
           logged_in)
  ∧ fst (handle demo_teachers
           (Signup "Chess Club" "new@mergington.edu" demo_header)
           (snd (handle demo_teachers
                   (Unregister "Math Club" "james@mergington.edu" demo_header)
                   logged_in)))
    = fst (handle demo_teachers
             (Signup "Chess Club" "new@mergington.edu" demo_header)
             logged_in)
  ∧ run demo_teachers
      [Signup "Chess Club" "new@mergington.edu" demo_header;
       Unregister "Math Club" "james@mergington.edu" demo_header] logged_in
    = run demo_teachers
        [Unregister "Math Club" "james@mergington.edu" demo_header;
         Signup "Chess Club" "new@mergington.edu" demo_header] logged_in.
Proof.
  apply (X17_different_activities_commute demo_teachers
           (Signup "Chess Club" "new@mergington.edu" demo_header)
           (Unregister "Math Club" "james@mergington.edu" demo_header)
           "Chess Club" "Math Club" logged_in).
  - reflexivity.
  - reflexivity.
  - discriminate.
Defined.

Lemma X19_two_demo_sessions :
  ∃ st3,
    admin_logout (Some ("Bearer " +:+ demo_token)) logged_in_twice
    = (Return (MessageBody "Logged out"), st3)
    ∧ _check_admin_token (Some ("Bearer " +:+ demo_token)) (_sessions st3)
      = Return false
    ∧ _check_admin_token (Some ("Bearer " +:+ demo_token1)) (_sessions st3)
      = Return true.
Proof.
  apply (X19_sessions_independent demo_teachers demo_login demo_login 0 1
           initial_state logged_in logged_in_twice demo_token demo_token1).
  - vm_compute. reflexivity.
  - vm_compute. reflexivity.
  - discriminate.
Defined.

Lemma X20_demo_header_logged_out :
  fst (admin_logout demo_header logged_in)
  = Return (MessageBody "Logged out")
  ∧ _check_admin_token demo_header
      (_sessions (snd (admin_logout demo_header logged_in)))
    = Return false.
Proof.
  apply (X20_logout_agrees_with_check demo_header logged_in).
  vm_compute. reflexivity.
Defined.

Example uuid4_hex_zero :
  Uuid.uuid4_hex 0 = "00000000000040008000000000000000".
Proof. reflexivity. Qed.

Example uuid4_hex_ones :
  Uuid.uuid4_hex (2 ^ 128 - 1) = "ffffffffffff4fffbfffffffffffffff".
Proof. vm_compute. reflexivity. Qed.

Example split1_bearer :
  Py.split1 " " "Bearer  a b " = ["Bearer"; " a b "].
Proof. reflexivity. Qed.

Example split1_none : Py.split1 " " "x" = ["x"].
Proof. reflexivity. Qed.

Example strip_ex : Py.strip "  a b  " = "a b".
Proof. reflexivity. Qed.
